(** * Validators of the wallet library: a shallow embedding

    The five validators of [validators.js] ([derivationPathValidator],
    [safeIntegerValidator], [bigNumberValidator], [addressValidator],
    [hexSequenceValidator]) are embedded as computations in a small
    state-and-exception monad.  The state is the local array
    [validationTests] together with the sequence of calls made to
    [assertTruth] and the internal state of the value under validation;
    an exception is either the [Error] thrown by a failed
    assertion (identified by the message-catalog entry it carries) or the
    [TypeError] the JavaScript runtime throws on a property access on
    [undefined]. *)

From Stdlib Require Import String Ascii List ZArith Lia Bool.
From Stdlib Require Import SpecFloat.
Import ListNotations.

Local Open Scope string_scope.
Local Open Scope Z_scope.

(** ** JavaScript runtime primitives used by the validators *)

Module JS.

(** A JavaScript number is an IEEE-754 binary64 value. *)
Definition number : Type := spec_float.

Definition prec : Z := 53.
Definition emax : Z := 1024.

(** The number denoted by an integer literal (round to nearest even). *)
Definition number_of_Z (z : Z) : number := binary_normalize prec emax z 0 false.

Definition NaN : number := S754_nan.

(** [x === y] on two numbers. *)
Definition strict_eq (x y : number) : bool := SFeqb x y.

(** [x >= 0] on a number ([0 <= x]; false on NaN). *)
Definition ge0 (x : number) : bool := SFleb (S754_zero false) x.

Definition MAX_SAFE_INTEGER : Z := 2 ^ 53 - 1.

(** [Number.isSafeInteger(x)] on a number: [x] is finite, has no
    fractional part and its magnitude is at most [2^53 - 1]. *)
Definition isSafeInteger (x : number) : bool :=
  match x with
  | S754_zero _ => true
  | S754_finite _ m e =>
      if 0 <=? e
      then Z.pos m * 2 ^ e <=? MAX_SAFE_INTEGER
      else ((Z.pos m) mod 2 ^ (- e) =? 0)
           && (Z.pos m / 2 ^ (- e) <=? MAX_SAFE_INTEGER)
  | S754_infinity _ | S754_nan => false
  end.

(** Strings: a [string] stands for a JavaScript string whose code units
    are all below 256, one [ascii] per code unit. *)

Definition code (c : ascii) : N := N_of_ascii c.

Definition in_range (lo hi : N) (c : ascii) : bool :=
  ((lo <=? code c) && (code c <=? hi))%N.

Definition is_digit (c : ascii) : bool := in_range 48 57 c.
Definition is_upper_hex (c : ascii) : bool := in_range 65 70 c.
Definition is_lower_hex (c : ascii) : bool := in_range 97 102 c.
Definition is_hex (c : ascii) : bool :=
  is_digit c || is_upper_hex c || is_lower_hex c.

(** [String.prototype.toLowerCase] on code units below 256: [A-Z] and
    the Latin-1 capitals [U+00C0 .. U+00DE] except [U+00D7]. *)
Definition lower_char (c : ascii) : ascii :=
  if in_range 65 90 c
     || (in_range 192 222 c && negb (code c =? 215)%N)
  then ascii_of_N (code c + 32)
  else c.

Fixpoint toLowerCase (s : string) : string :=
  match s with
  | EmptyString => EmptyString
  | String c s' => String (lower_char c) (toLowerCase s')
  end.

Fixpoint chars (s : string) : list string :=
  match s with
  | EmptyString => []
  | String c s' => String c EmptyString :: chars s'
  end.

(** [split_go sep skip acc s]: scan [s] left to right; [acc] is the
    segment read so far, [skip] the number of code units of a separator
    just matched that are still to be passed over. *)
Fixpoint split_go (sep : string) (skip : nat) (acc s : string) {struct s}
  : list string :=
  match s with
  | EmptyString => [acc]
  | String c s' =>
      match skip with
      | S k => split_go sep k acc s'
      | O =>
          if prefix sep s
          then acc :: split_go sep (String.length sep - 1) EmptyString s'
          else split_go sep 0 (acc ++ String c EmptyString) s'
      end
  end.

(** [s.split(sep)] for a string separator: the empty separator cuts
    between all code units. *)
Definition split (sep s : string) : list string :=
  match sep with
  | EmptyString => chars s
  | _ => split_go sep 0 EmptyString s
  end.

(** White space skipped by [parseInt] (code units below 256). *)
Definition is_space (c : ascii) : bool :=
  in_range 9 13 c || (code c =? 32)%N || (code c =? 160)%N.

Fixpoint trim_start (s : string) : string :=
  match s with
  | String c s' => if is_space c then trim_start s' else s
  | EmptyString => EmptyString
  end.

Definition digit_val (c : ascii) : Z := Z.of_N (code c) - 48.

(** The longest prefix of decimal digits, read as an integer; [None]
    when there is no digit. *)
Fixpoint digits_go (acc : option Z) (s : string) : option Z :=
  match s with
  | String c s' =>
      if is_digit c
      then digits_go
             (Some (10 * match acc with Some a => a | None => 0 end
                    + digit_val c)) s'
      else acc
  | EmptyString => acc
  end.

(** [parseInt(s, 10)] on a string. *)
Definition parseInt_string (s : string) : number :=
  let t := trim_start s in
  let (neg, body) :=
    match t with
    | String c t' =>
        if (code c =? 45)%N then (true, t')
        else if (code c =? 43)%N then (false, t')
        else (false, t)
    | EmptyString => (false, t)
    end in
  match digits_go None body with
  | None => NaN
  | Some z =>
      let x := number_of_Z z in
      if neg then SFopp x else x
  end.

(** [parseInt(x, 10)] where [x] is an array element or [undefined]:
    [undefined] is first converted to the string ["undefined"]. *)
Definition parseInt (x : option string) : number :=
  match x with
  | Some s => parseInt_string s
  | None => NaN
  end.

End JS.

(** ** Values handed to the validators

    The validators take a parameter of type [any].  A value is
    [undefined], [null], a boolean, a number, a BigInt, a string or an
    object.  An object is described by what the validators can observe of
    it:
    - whether [BN.isBN] recognises it;
    - the numbers that its conversions by [>=] yield, one after the
      other: [obj_valueOf o k] is the number that the conversion yields
      when [k] conversions have been made before, so that a [valueOf]
      with side effects is a function that is not constant;
    - the natural number its [length] property is equal to, if any;
    - whether [JSON.stringify] throws on it (a circular structure, a
      BigInt inside).
    It has no [split] or [match] method, and its conversion to a string
    in a template literal neither throws nor has side effects.  Values of
    type symbol are left out. *)

Record object : Type := {
  obj_isBN : bool;
  obj_valueOf : nat -> JS.number;
  obj_length : option nat;
  obj_stringify_throws : bool
}.

(** The number the first conversion of an object yields. *)
Definition obj_toNumber (o : object) : JS.number := obj_valueOf o 0.

Inductive value : Type :=
| VUndefined
| VNull
| VBool (b : bool)
| VNumber (x : JS.number)
| VBigInt (n : Z)
| VString (s : string)
| VObject (o : object).

(** [typeof v === 'string'] *)
Definition typeof_string (v : value) : bool :=
  match v with
  | VString _ => true
  | _ => false
  end.

(** ** The constants imported from [./defaults]

    The module that defines [PATH], [MATCH] and [SPLITTER] is not part of
    the sources at hand, so the validators take them as a parameter.  A
    regular expression is represented by the set of strings it matches.
    The constant [UNDEFINED] of the same module appears only in the text
    of messages, after the catalog entry. *)

Definition regexp : Type := string -> bool.

Record PathDefaults : Type := {
  HEADER_KEY : string;
  PURPOSE : JS.number;
  COIN_MAINNET : JS.number;
  COIN_TESTNET : JS.number;
  DELIMITER : string
}.

Record MatchDefaults : Type := {
  DIGITS : regexp;
  ADDRESS : regexp;
  HEX_STRING : regexp
}.

Record Defaults : Type := {
  PATH : PathDefaults;
  MATCH : MatchDefaults;
  SPLITTER : string
}.

(** The body of a string after an optional [0x] prefix, for the three
    patterns below. *)
Definition strip_0x (s : string) : string :=
  match s with
  | String "0" (String "x" body) => body
  | _ => s
  end.

Fixpoint all_chars (p : ascii -> bool) (s : string) : bool :=
  match s with
  | EmptyString => true
  | String c s' => p c && all_chars p s'
  end.

(** Modelled from the spec: [MATCH.DIGITS] is missing from the sources;
    the spec calls it "a digits-only pattern": one or more decimal
    digits and nothing else. *)
Definition spec_DIGITS : regexp :=
  fun s => negb (String.eqb s "") && all_chars JS.is_digit s.

(** [n] hexadecimal digits, nothing else. *)
Definition hex_body (n : nat) (s : string) : bool :=
  Nat.eqb (String.length s) n && all_chars JS.is_hex s.

(** Modelled from the spec: [MATCH.ADDRESS] is missing from the sources;
    the spec gives the pattern [^(0x)?[0-9a-fA-F]{40}$]. *)
Definition spec_ADDRESS : regexp :=
  fun s => hex_body 40 s || (prefix "0x" s && hex_body 40 (strip_0x s)).

Definition even_hex_body (s : string) : bool :=
  Nat.even (String.length s) && all_chars JS.is_hex s.

(** Modelled from the spec: [MATCH.HEX_STRING] is missing from the
    sources; the spec describes "a hex-sequence pattern (optionally
    0x-prefixed, even-length hex body)". *)
Definition spec_HEX_STRING : regexp :=
  fun s => even_hex_body s || (prefix "0x" s && even_hex_body (strip_0x s)).

(** Modelled from the spec: the constants of [./defaults], which is
    missing from the sources.  The spec names the path delimiter [/], the
    sub-delimiter ['], the header key [m] and the purpose 44; it names two
    coin types (main net and test net) without their values, for which
    the registered 60 and 1 are taken (the spec's examples accept 60 and
    reject 99). *)
Definition spec_defaults : Defaults := {|
  PATH := {|
    HEADER_KEY := "m";
    PURPOSE := JS.number_of_Z 44;
    COIN_MAINNET := JS.number_of_Z 60;
    COIN_TESTNET := JS.number_of_Z 1;
    DELIMITER := "/"
  |};
  MATCH := {|
    DIGITS := spec_DIGITS;
    ADDRESS := spec_ADDRESS;
    HEX_STRING := spec_HEX_STRING
  |};
  SPLITTER := "'"
|}.

(** ** The message catalog ([messages.js], export [validators]) *)

Module Messages.

Inductive validator_name : Type :=
| derivationPath | safeInteger | bigNumber | address | hexSequence.

Inductive message_key : Type :=
| notString | notValidParts | notValidHeaderKey | notValidPurpouse
| notValidCoin | notValidAccount | notValidChangeIndex
| notValidAccountIndex | genericError
| notNumber | notPositive | notSafe
| notBigNumber
| notStringSequence | notLength | notFormat | notChecksum.

(** [validators v k] is the property [validators.v.k] of the catalog,
  [None] where the catalog has no such property. *)
Definition validators (v : validator_name) (k : message_key) : option string :=
match v, k with
| derivationPath, notString =>
    Some "Derivation path is not the correct type (expected a String)"
| derivationPath, notValidParts =>
    Some "Derivation path does not contain the required parts (Purpouse, Coin Id, Account, Change + Index)"
| derivationPath, notValidHeaderKey =>
    Some "Derivation path does not start with the correct header key"
| derivationPath, notValidPurpouse =>
    Some "Derivation path does have the Ethereum reserved Purpouse"
| derivationPath, notValidCoin =>
    Some "Derivation path does have the correct Coin type Id (Main or Test net)"
| derivationPath, notValidAccount =>
    Some "Derivation path does have the correct account value/type"
| derivationPath, notValidChangeIndex =>
    Some "Derivation path does have the correct Change value or Account Index"
| derivationPath, notValidAccountIndex =>
    Some "Derivation path should have only one value for the Account Index"
| derivationPath, genericError =>
    Some "Something is wrong with the supplied derivation path:"
| safeInteger, notNumber =>
    Some "The value passed in as an argument is not a number"
| safeInteger, notPositive =>
    Some "The integer value passed in as an argument is not positive"
| safeInteger, notSafe =>
    Some "The integer value passed in as an argument outside the safe range"
| safeInteger, genericError =>
    Some "Something is wrong with the supplied integer"
| bigNumber, notBigNumber =>
    Some "The value passed in is not a Big Number"
| bigNumber, genericError =>
    Some "Something is wrong with the supplied Big Number value"
| address, notStringSequence =>
    Some "The address passed in is not a valid String"
| address, notLength =>
    Some "The address passed in does not have the correct length"
| address, notFormat =>
    Some "The address passed in is not in the correct format"
| address, notChecksum =>
    Some "The address passed in does not have the correct checksum"
| address, genericError =>
    Some "Something is wrong with the supplied address"
| hexSequence, notStringSequence =>
    Some "The hex sequence passed in is not a valid String"
| hexSequence, notFormat =>
    Some "The hex sequence passed in is not in a correct hex format"
| hexSequence, genericError =>
    Some "Something is wrong with the supplied hex sequence"
| _, _ => None
end.

End Messages.

(** A message as the validators build it: the catalog entry it starts
    with.  The rendering of the offending input that follows the entry is
    not modelled. *)
Definition message : Type := (Messages.validator_name * Messages.message_key)%type.

Definition message_text (m : message) : option string :=
  Messages.validators (fst m) (snd m).

(** ** Keccak-256 and the mixed-case address checksum *)

Module Keccak.

Definition mask64 : Z := 2 ^ 64 - 1.

Definition rol (x n : Z) : Z :=
  let n := n mod 64 in
  Z.land (Z.lor (Z.shiftl x n) (Z.shiftr x (64 - n))) mask64.

(** Lane [(x, y)] of the 5 x 5 state is element [x + 5 y]. *)
Definition lane (A : list Z) (i : nat) : Z := nth i A 0.

Fixpoint upd (i : nat) (v : Z) (A : list Z) : list Z :=
  match A, i with
  | [], _ => []
  | _ :: A', O => v :: A'
  | a :: A', S i' => a :: upd i' v A'
  end.

Definition RC : list Z :=
  [ 0x0000000000000001; 0x0000000000008082; 0x800000000000808A;
    0x8000000080008000; 0x000000000000808B; 0x0000000080000001;
    0x8000000080008081; 0x8000000000008009; 0x000000000000008A;
    0x0000000000000088; 0x0000000080008009; 0x000000008000000A;
    0x000000008000808B; 0x800000000000008B; 0x8000000000008089;
    0x8000000000008003; 0x8000000000008002; 0x8000000000000080;
    0x000000000000800A; 0x800000008000000A; 0x8000000080008081;
    0x8000000000008080; 0x0000000080000001; 0x8000000080008008 ].

Definition theta (A : list Z) : list Z :=
  let C := map (fun x =>
                  Z.lxor (lane A x)
                    (Z.lxor (lane A (x + 5))
                       (Z.lxor (lane A (x + 10))
                          (Z.lxor (lane A (x + 15)) (lane A (x + 20))))))
               (seq 0 5) in
  let D := map (fun x =>
                  Z.lxor (lane C ((x + 4) mod 5)) (rol (lane C ((x + 1) mod 5)) 1))
               (seq 0 5) in
  map (fun i => Z.lxor (lane A i) (lane D (i mod 5))) (seq 0 25).

(** rho and pi together: walk the 24 lanes other than [(0, 0)] from
    [(1, 0)] by [(x, y) -> (y, 2x + 3y)], moving each into the next
    position rotated by the triangular number of the step. *)
Fixpoint rho_pi_go (ts : list nat) (x y : nat) (cur : Z) (A : list Z)
  : list Z :=
  match ts with
  | [] => A
  | t :: ts' =>
      let x' := y in
      let y' := ((2 * x + 3 * y) mod 5)%nat in
      let i := (x' + 5 * y')%nat in
      rho_pi_go ts' x' y' (lane A i)
        (upd i (rol cur (Z.of_nat ((t + 1) * (t + 2) / 2))) A)
  end.

Definition rho_pi (A : list Z) : list Z :=
  rho_pi_go (seq 0 24) 1 0 (lane A 1) A.

Definition chi (A : list Z) : list Z :=
  map (fun i =>
         let x := (i mod 5)%nat in
         let y := (i / 5)%nat in
         Z.lxor (lane A i)
           (Z.land (Z.lxor (lane A ((x + 1) mod 5 + 5 * y)) mask64)
                   (lane A ((x + 2) mod 5 + 5 * y))))
      (seq 0 25).

Definition iota (rc : Z) (A : list Z) : list Z :=
  upd 0 (Z.lxor (lane A 0) rc) A.

Definition round (A : list Z) (rc : Z) : list Z :=
  iota rc (chi (rho_pi (theta A))).

Definition keccak_f (A : list Z) : list Z := fold_left round RC A.

Definition rate : nat := 136.

(** Multi-rate padding with the Keccak domain byte [0x01]: the padded
    message is a multiple of [rate] bytes, ends in a byte with bit 7 set
    and has [0x01] right after the message. *)
Definition pad (msg : list Z) : list Z :=
  let q := (rate - (List.length msg mod rate))%nat in
  if Nat.eqb q 1 then msg ++ [0x81]
  else msg ++ [0x01] ++ repeat 0 (q - 2) ++ [0x80].

Fixpoint le_word (bytes : list Z) : Z :=
  match bytes with
  | [] => 0
  | b :: bytes' => b + 256 * le_word bytes'
  end.

Fixpoint lanes_of (n : nat) (bytes : list Z) : list Z :=
  match n with
  | O => []
  | S n' => le_word (firstn 8 bytes) :: lanes_of n' (skipn 8 bytes)
  end.

Fixpoint xor_lanes (A B : list Z) : list Z :=
  match A, B with
  | a :: A', b :: B' => Z.lxor a b :: xor_lanes A' B'
  | _, [] => A
  | [], _ => []
  end.

Fixpoint absorb (blocks : nat) (bytes : list Z) (A : list Z) : list Z :=
  match blocks with
  | O => A
  | S blocks' =>
      absorb blocks' (skipn rate bytes)
        (keccak_f (xor_lanes A (lanes_of (rate / 8) (firstn rate bytes))))
  end.

Definition bytes_of_lane (l : Z) : list Z :=
  map (fun k => Z.land (Z.shiftr l (8 * Z.of_nat k)) 255) (seq 0 8).

(** The 32 bytes of the digest. *)
Definition keccak256 (msg : list Z) : list Z :=
  let padded := pad msg in
  let A := absorb (List.length padded / rate) padded (repeat 0 25) in
  flat_map bytes_of_lane (firstn 4 A).

(** The digest as 64 hexadecimal digits, high nibble of each byte
    first. *)
Definition nibbles (digest : list Z) : list Z :=
  flat_map (fun b => [Z.shiftr b 4; Z.land b 15]) digest.

Fixpoint bytes_of_string (s : string) : list Z :=
  match s with
  | EmptyString => []
  | String c s' => Z.of_N (N_of_ascii c) :: bytes_of_string s'
  end.

End Keccak.

(** [case_matches i hash s]: every letter among the hexadecimal digits
    of [s], the first of which has index [i], is upper case exactly when
    the digit of the hash at its index is 8 or more. *)
Fixpoint case_matches (i : nat) (hash : list Z) (s : string) : bool :=
  match s with
  | EmptyString => true
  | String c s' =>
      (if JS.is_upper_hex c || JS.is_lower_hex c
       then Bool.eqb (JS.is_upper_hex c) (8 <=? nth i hash 0)
       else true)
      && case_matches (S i) hash s'
  end.

(** Modelled from the spec: [isValidChecksumAddress] belongs to the
    library [ethereumjs-util], which is not part of the sources.  The
    spec describes it as "hashing the lowercase hex digits with a
    Keccak-256-family hash and comparing each hex character's case
    against the corresponding nibble of the hash digest (nibble >= 8 =>
    uppercase required)".  The spec does not say what the library answers
    on digits that come without the [0x] prefix; the rule is applied to
    them as it is to the others.  On a value that is not a string the
    answer is [false]. *)
Definition isValidChecksumAddress (v : value) : bool :=
  match v with
  | VString s =>
      let digits := strip_0x s in
      let hash :=
        Keccak.nibbles
          (Keccak.keccak256 (Keccak.bytes_of_string (JS.toLowerCase digits))) in
      case_matches 0 hash digits
  | _ => false
  end.

(** ** Evaluation: local state and exceptions *)

Inductive exn : Type :=
| Error (m : message)   (* [new Error(...)], thrown by a failed assertion *)
| TypeError.            (* thrown by the runtime *)

Inductive result (A : Type) : Type :=
| Return (a : A)
| Throw (e : exn).

Arguments Return {A} a.
Arguments Throw {A} e.

(** [validationTests] is the array of the same name, local to a call;
    [assertions] lists the messages of the calls made to [assertTruth],
    the latest first; [converted] is the internal state of the value
    under validation: the number of conversions by [>=] it has undergone. *)
Record state : Type := {
  validationTests : list bool;
  assertions : list message;
  converted : nat
}.

Definition M (A : Type) : Type := state -> result A * state.

Definition ret {A} (a : A) : M A := fun st => (Return a, st).

Definition throw {A} (e : exn) : M A := fun st => (Throw e, st).

Definition bind {A B} (m : M A) (f : A -> M B) : M B :=
  fun st =>
    match m st with
    | (Return a, st') => f a st'
    | (Throw e, st') => (Throw e, st')
    end.

Notation "x <- m ;; k" := (bind m (fun x => k))
  (at level 61, m at next level, right associativity).
Notation "m ;; k" := (bind m (fun _ => k))
  (at level 61, right associativity).

(** [try { body } catch (error) { handler }] *)
Definition try_catch {A} (body : M A) (handler : M A) : M A :=
  fun st =>
    match body st with
    | (Return a, st') => (Return a, st')
    | (Throw _, st') => handler st'
    end.

(** [const validationTests = [];] *)
Definition new_validationTests : M unit :=
  fun st =>
    (Return tt, {| validationTests := [];
                   assertions := assertions st;
                   converted := converted st |}).

(** [validationTests.push(b)] *)
Definition push (b : bool) : M unit :=
  fun st =>
    (Return tt, {| validationTests := validationTests st ++ [b];
                   assertions := assertions st;
                   converted := converted st |}).

Definition get_validationTests : M (list bool) :=
  fun st => (Return (validationTests st), st).

(** Modelled from the spec: [assertTruth] is imported from [../utils],
    which is missing from the sources.  The spec: "if [expression] is
    false, it immediately raises a failure whose payload is the joined
    message; otherwise it returns [true]". *)
Definition assertTruth (expression : bool) (msg : message) : M bool :=
  fun st =>
    let st' := {| validationTests := validationTests st;
                  assertions := msg :: assertions st;
                  converted := converted st |} in
    if expression then (Return true, st') else (Throw (Error msg), st').

(** [validationTests.some(test => test !== false)] *)
Definition some_not_false (tests : list bool) : bool :=
  existsb (fun test => negb (Bool.eqb test false)) tests.

(** [a[i]] on an array of strings: [None] is [undefined]. *)
Definition index (a : list string) (i : nat) : option string := nth_error a i.

(** [x.split(sep)] where [x] is a string or [undefined]. *)
Definition split_of (x : option string) (sep : string) : M (list string) :=
  match x with
  | Some s => ret (JS.split sep s)
  | None => throw TypeError
  end.

(** [x.toLowerCase()] where [x] is a string or [undefined]. *)
Definition toLowerCase_of (x : option string) : M string :=
  match x with
  | Some s => ret (JS.toLowerCase s)
  | None => throw TypeError
  end.

(** [!!x.match(re)] where [x] is a string or [undefined]. *)
Definition match_of (x : option string) (re : regexp) : M bool :=
  match x with
  | Some s => ret (re s)
  | None => throw TypeError
  end.

(** [v.split(sep)] on a value: only a string has the method. *)
Definition value_split (v : value) (sep : string) : M (list string) :=
  match v with
  | VString s => ret (JS.split sep s)
  | _ => throw TypeError
  end.

(** [!!v.match(re)] on a value: only a string has the method. *)
Definition value_match (v : value) (re : regexp) : M bool :=
  match v with
  | VString s => ret (re s)
  | _ => throw TypeError
  end.

(** [v.length] on a value: [None] stands for [undefined] and for any
    value that is not a natural number; reading a property of [undefined]
    or [null] throws.  The length of a string is a natural number below
    [2^53], which a number represents exactly. *)
Definition value_length (v : value) : M (option nat) :=
  match v with
  | VUndefined | VNull => throw TypeError
  | VString s => ret (Some (String.length s))
  | VObject o => ret (obj_length o)
  | VBool _ | VNumber _ | VBigInt _ => ret None
  end.

(** [x === n] where [x] is a length and [n] a natural number literal. *)
Definition length_eq (x : option nat) (n : nat) : bool :=
  match x with
  | Some k => Nat.eqb k n
  | None => false
  end.

(** [JSON.stringify(v)], of which only the failure matters: it throws
    a [TypeError] on a BigInt and on an object it cannot serialize. *)
Definition stringify_throws (v : value) : bool :=
  match v with
  | VBigInt _ => true
  | VObject o => obj_stringify_throws o
  | _ => false
  end.

Definition stringify (v : value) : M unit :=
  if stringify_throws v then throw TypeError else ret tt.

(** [BN.isBN(v)] *)
Definition isBN (v : value) : bool :=
  match v with
  | VObject o => obj_isBN o
  | _ => false
  end.

(** [Number.isSafeInteger(v)]: false on anything but a number. *)
Definition isSafeInteger (v : value) : bool :=
  match v with
  | VNumber x => JS.isSafeInteger x
  | _ => false
  end.

(** ** The validators ([validators.js])

    Every check has the shape [validationTests.push(assertTruth({
    expression, message }))]: the expression and then the message are
    evaluated, [assertTruth] is called, and its result is pushed.  The
    message is a string built from a catalog entry and the value; what
    building it can do is modelled where it can throw: [stringify] stands
    for the [JSON.stringify] of the value in the first message of
    [bigNumberValidator], [addressValidator] and [hexSequenceValidator].
    The other messages render the value in a template literal or hand it
    over in an array, which does not throw on the values above. *)

Section Validators.

(** The constants of [./defaults]. *)
Variable defaults : Defaults.

(** The runtime's conversion of a string to a number, used by [>=]. *)
Variable StringToNumber : string -> JS.number.

(** The number that [v >= 0] compares with 0 when [k] conversions of
    [v] have been made before: [ToNumber(v)], but for a BigInt, which is
    compared by its value. *)
Definition ToNumber_at (k : nat) (v : value) : JS.number :=
  match v with
  | VUndefined => JS.NaN
  | VNull => S754_zero false
  | VBool b => if b then JS.number_of_Z 1 else S754_zero false
  | VNumber x => x
  | VBigInt n => JS.number_of_Z n
  | VString s => StringToNumber s
  | VObject o => obj_valueOf o k
  end.

(** The internal state of a value after a conversion made in state [k]:
    only an object has one. *)
Definition conversions_after (v : value) (k : nat) : nat :=
  match v with
  | VObject _ => S k
  | _ => k
  end.

(** The same for a value that has not been converted before. *)
Definition ToNumber (v : value) : JS.number := ToNumber_at 0 v.

(** The conversion made by [v >= 0]: it reads the internal state of an
    object and moves it on. *)
Definition to_number (v : value) : M JS.number :=
  fun st =>
    (Return (ToNumber_at (converted st) v),
     {| validationTests := validationTests st;
        assertions := assertions st;
        converted := conversions_after v (converted st) |}).

Definition derivationPathValidator (derivationPath : value) : M bool :=
  let derivationPathMessages k : message := (Messages.derivationPath, k) in
  new_validationTests ;;
  deSerializedDerivationPath <-
    try_catch
      (value_split derivationPath (DELIMITER (PATH defaults)))
      (b <- assertTruth (typeof_string derivationPath)
              (derivationPathMessages Messages.notString) ;;
       push b ;;
       ret []) ;;
  b <- assertTruth (Nat.eqb (List.length deSerializedDerivationPath) 4)
         (derivationPathMessages Messages.notValidParts) ;;
  push b ;;
  parts <- split_of (index deSerializedDerivationPath 0) (SPLITTER defaults) ;;
  headerKey <- toLowerCase_of (index parts 0) ;;
  b <- assertTruth (String.eqb headerKey (HEADER_KEY (PATH defaults)))
         (derivationPathMessages Messages.notValidHeaderKey) ;;
  push b ;;
  parts <- split_of (index deSerializedDerivationPath 0) (SPLITTER defaults) ;;
  b <- assertTruth
         (JS.strict_eq (JS.parseInt (index parts 1)) (PURPOSE (PATH defaults)))
         (derivationPathMessages Messages.notValidPurpouse) ;;
  push b ;;
  let coinType := JS.parseInt (index deSerializedDerivationPath 1) in
  b <- assertTruth
         (JS.strict_eq coinType (COIN_MAINNET (PATH defaults))
          || JS.strict_eq coinType (COIN_TESTNET (PATH defaults)))
         (derivationPathMessages Messages.notValidCoin) ;;
  push b ;;
  account <- match_of (index deSerializedDerivationPath 2)
               (DIGITS (MATCH defaults)) ;;
  b <- assertTruth account
         (derivationPathMessages Messages.notValidAccount) ;;
  push b ;;
  parts <- split_of (index deSerializedDerivationPath 3) (SPLITTER defaults) ;;
  b <- assertTruth
         (forallb (fun truth => negb (Bool.eqb truth false))
            (map (fun value => DIGITS (MATCH defaults) value) parts))
         (derivationPathMessages Messages.notValidChangeIndex) ;;
  push b ;;
  parts <- split_of (index deSerializedDerivationPath 3) (SPLITTER defaults) ;;
  b <- assertTruth (Nat.leb (List.length parts) 2)
         (derivationPathMessages Messages.notValidAccountIndex) ;;
  push b ;;
  tests <- get_validationTests ;;
  if negb (some_not_false tests)
  then throw (Error (derivationPathMessages Messages.genericError))
  else ret true.

Definition safeIntegerValidator (integer : value) : M bool :=
  let safeIntegerMessages k : message := (Messages.safeInteger, k) in
  new_validationTests ;;
  b <- assertTruth true (safeIntegerMessages Messages.notNumber) ;;
  push b ;;
  number <- to_number integer ;;
  b <- assertTruth (JS.ge0 number)
         (safeIntegerMessages Messages.notPositive) ;;
  push b ;;
  b <- assertTruth (isSafeInteger integer)
         (safeIntegerMessages Messages.notSafe) ;;
  push b ;;
  tests <- get_validationTests ;;
  if negb (some_not_false tests)
  then throw (Error (safeIntegerMessages Messages.genericError))
  else ret true.

Definition bigNumberValidator (bigNumber : value) : M bool :=
  let bigNumberMessages k : message := (Messages.bigNumber, k) in
  new_validationTests ;;
  stringify bigNumber ;;
  b <- assertTruth (isBN bigNumber)
         (bigNumberMessages Messages.notBigNumber) ;;
  push b ;;
  tests <- get_validationTests ;;
  if negb (some_not_false tests)
  then stringify bigNumber ;;
       throw (Error (bigNumberMessages Messages.genericError))
  else ret true.

Definition addressValidator (address : value) : M bool :=
  let addressMessages k : message := (Messages.address, k) in
  new_validationTests ;;
  stringify address ;;
  b <- assertTruth (typeof_string address)
         (addressMessages Messages.notStringSequence) ;;
  push b ;;
  len <- value_length address ;;
  b <- assertTruth
         (length_eq len 40 || length_eq len 42)
         (addressMessages Messages.notStringSequence) ;;
  push b ;;
  format <- value_match address (ADDRESS (MATCH defaults)) ;;
  b <- assertTruth format (addressMessages Messages.notFormat) ;;
  push b ;;
  b <- assertTruth (isValidChecksumAddress address)
         (addressMessages Messages.notChecksum) ;;
  push b ;;
  tests <- get_validationTests ;;
  if negb (some_not_false tests)
  then throw (Error (addressMessages Messages.genericError))
  else ret true.

Definition hexSequenceValidator (string : value) : M bool :=
  let hexSequenceMessages k : message := (Messages.hexSequence, k) in
  new_validationTests ;;
  stringify string ;;
  b <- assertTruth (typeof_string string)
         (hexSequenceMessages Messages.notStringSequence) ;;
  push b ;;
  format <- value_match string (HEX_STRING (MATCH defaults)) ;;
  b <- assertTruth format (hexSequenceMessages Messages.notFormat) ;;
  push b ;;
  tests <- get_validationTests ;;
  if negb (some_not_false tests)
  then throw (Error (hexSequenceMessages Messages.genericError))
  else ret true.

End Validators.

(** The state of a program that has called no validator yet, and the
    outcome of a call made in it: what the caller sees. *)
Definition initial : state :=
  {| validationTests := []; assertions := []; converted := 0 |}.

Definition call {A} (m : M A) : result A := fst (m initial).

(** Does the outcome [r] carry the failure with message [m]? *)
Definition validator_name_eqb (a b : Messages.validator_name) : bool :=
  match a, b with
  | Messages.derivationPath, Messages.derivationPath
  | Messages.safeInteger, Messages.safeInteger
  | Messages.bigNumber, Messages.bigNumber
  | Messages.address, Messages.address
  | Messages.hexSequence, Messages.hexSequence => true
  | _, _ => false
  end.

Definition key_index (k : Messages.message_key) : nat :=
  match k with
  | Messages.notString => 0 | Messages.notValidParts => 1
  | Messages.notValidHeaderKey => 2 | Messages.notValidPurpouse => 3
  | Messages.notValidCoin => 4 | Messages.notValidAccount => 5
  | Messages.notValidChangeIndex => 6 | Messages.notValidAccountIndex => 7
  | Messages.genericError => 8 | Messages.notNumber => 9
  | Messages.notPositive => 10 | Messages.notSafe => 11
  | Messages.notBigNumber => 12 | Messages.notStringSequence => 13
  | Messages.notLength => 14 | Messages.notFormat => 15
  | Messages.notChecksum => 16
  end%nat.

Definition message_eqb (a b : message) : bool :=
  validator_name_eqb (fst a) (fst b)
  && Nat.eqb (key_index (snd a)) (key_index (snd b)).

Definition raises {A} (r : result A) (m : message) : bool :=
  match r with
  | Throw (Error m') => message_eqb m' m
  | _ => false
  end.

(** The assertions of [derivationPathValidator] on a string, in the order
    of the source. *)
Definition derivationPath_checks : list message :=
  map (fun k => (Messages.derivationPath, k))
    [ Messages.notValidParts; Messages.notValidHeaderKey;
      Messages.notValidPurpouse; Messages.notValidCoin;
      Messages.notValidAccount; Messages.notValidChangeIndex;
      Messages.notValidAccountIndex ].

(** The state after the first [n] of these assertions held and were
    pushed. *)
Definition passed (n : nat) (st : state) : state :=
  {| validationTests := repeat true n;
     assertions := (rev (firstn n derivationPath_checks) ++ assertions st)%list;
     converted := converted st |}.

(** The [n]-th assertion fails, the ones before it having held: its
    failure is thrown and its result is not pushed. *)
Definition fails_at (n : nat) (st : state) : result bool * state :=
  (Throw (Error (nth (n - 1) derivationPath_checks
                   (Messages.derivationPath, Messages.genericError))),
   {| validationTests := validationTests (passed (n - 1) st);
      assertions := assertions (passed n st);
      converted := converted st |}).

(** The language of hex sequences in the words of the spec: "a string
    of even-length hexadecimal characters, optionally 0x-prefixed". *)
Definition hex_sequence_language (s : string) : Prop :=
  exists body : string,
    (s = body \/ s = "0x" ++ body)
    /\ Nat.Even (String.length body)
    /\ Forall (fun c => JS.is_hex c = true) (list_ascii_of_string body).

(** An outcome of [derivationPathValidator] that is [true] or one of its
    own failures. *)
Definition typed_outcome (r : result bool) : bool :=
  match r with
  | Return b => b
  | Throw (Error (Messages.derivationPath, _)) => true
  | Throw _ => false
  end.

(** All suffixes, prefixes and substrings of a string. *)
Fixpoint suffixes (s : string) : list string :=
  s :: match s with
       | EmptyString => []
       | String _ s' => suffixes s'
       end.

Fixpoint prefixes (s : string) : list string :=
  EmptyString :: match s with
                 | EmptyString => []
                 | String c s' => map (String c) (prefixes s')
                 end.

Definition substrings (s : string) : list string :=
  flat_map prefixes (suffixes s).

Definition same_strings (l1 l2 : list string) : bool :=
  if list_eq_dec string_dec l1 l2 then true else false.

(** The fail-safe at the end of a validator is not reached with a list
    that triggers it: a run that comes back from the validator has passed
    the test of the fail-safe with a list that is not empty and holds only
    [true], and a run that throws does not throw the failure [generic]. *)
Definition fail_safe_unreached (generic : message) (run : result bool * state)
  : bool :=
  match fst run with
  | Return _ =>
      negb (Nat.eqb (List.length (validationTests (snd run))) 0)
      && forallb (fun test => Bool.eqb test true) (validationTests (snd run))
  | Throw _ => negb (raises (fst run) generic)
  end.







(** The checksum rule in the words of the spec: the lowercase
    hexadecimal digits of the address are hashed, and every letter among
    the digits is upper case exactly when the digit of the hash at the
    same index is 8 or more. *)
Definition checksum_rule (s : string) : Prop :=
  let digits := strip_0x s in
  let hash :=
    Keccak.nibbles
      (Keccak.keccak256 (Keccak.bytes_of_string (JS.toLowerCase digits))) in
  forall (i : nat) (c : ascii),
    String.get i digits = Some c ->
    JS.is_upper_hex c || JS.is_lower_hex c = true ->
    (JS.is_upper_hex c = true <-> 8 <= nth i hash 0).

(** Pushes and assertions stay in step during a run started in [st]:
    [log] lists the assertions the run called.  When the run returns
    every one of them pushed [true]; when it throws a failure, the
    failure is that of the assertion called last, which pushed nothing,
    and the ones before it pushed [true]. *)
Definition in_step (st : state) (run : result bool * state) : Prop :=
  exists log : list message,
    assertions (snd run) = (log ++ assertions st)%list
    /\ match fst run with
       | Throw (Error m) =>
           exists log', log = m :: log'
                        /\ validationTests (snd run)
                           = repeat true (List.length log')
       | _ => validationTests (snd run) = repeat true (List.length log)
       end.

(** The number [x] is the integer [n]. *)
Definition number_is_integer (x : JS.number) (n : Z) : Prop :=
  match x with
  | S754_zero _ => n = 0
  | S754_finite s m e =>
      let sm := if s then Z.neg m else Z.pos m in
      (0 <= e /\ n = sm * 2 ^ e) \/ (e < 0 /\ sm = n * 2 ^ (- e))
  | S754_infinity _ | S754_nan => False
  end.

Definition throws_TypeError {A} (r : result A) : bool :=
  match r with
  | Throw TypeError => true
  | _ => false
  end.

(** A failure carried by [r], if any, is one of [allowed]. *)
Definition only_raises {A} (allowed : list message) (r : result A) : bool :=
  match r with
  | Throw (Error m) => existsb (message_eqb m) allowed
  | _ => true
  end.

Definition defined_in_catalog (m : message) : bool :=
  match message_text m with
  | Some _ => true
  | None => false
  end.

(** The failures each validator can throw. *)
Definition derivationPath_failures : list message :=
  (Messages.derivationPath, Messages.notString) :: derivationPath_checks.

Definition safeInteger_failures : list message :=
  [ (Messages.safeInteger, Messages.notPositive);
    (Messages.safeInteger, Messages.notSafe) ].

Definition bigNumber_failures : list message :=
  [ (Messages.bigNumber, Messages.notBigNumber) ].

Definition address_failures : list message :=
  [ (Messages.address, Messages.notStringSequence);
    (Messages.address, Messages.notFormat);
    (Messages.address, Messages.notChecksum) ].

Definition hexSequence_failures : list message :=
  [ (Messages.hexSequence, Messages.notStringSequence);
    (Messages.hexSequence, Messages.notFormat) ].

(** * Properties *)

(** ** The evaluation monad *)

Lemma bind_Return {A B} (m : M A) (f : A -> M B) st a st' :
  m st = (Return a, st') -> bind m f st = f a st'.
Proof. intros H. unfold bind. rewrite H. reflexivity. Qed.

Lemma bind_Throw {A B} (m : M A) (f : A -> M B) st e st' :
  m st = (Throw e, st') -> bind m f st = (Throw e, st').
Proof. intros H. unfold bind. rewrite H. reflexivity. Qed.

Lemma bind_ret {A B} (x : A) (k : A -> M B) st : bind (ret x) k st = k x st.
Proof. reflexivity. Qed.

Lemma bind_stringify {B} (v : value) (k : M B) st :
  (stringify v ;; k) st =
  if stringify_throws v then (Throw TypeError, st) else k st.
Proof. unfold bind, stringify. destruct (stringify_throws v); reflexivity. Qed.

(** An assertion followed by the push of its result: either the
    assertion holds and [true] is appended to [validationTests], or the
    failure is thrown and nothing is appended. *)
Lemma assert_push {B} (e : bool) (msg : message) (k : M B) st :
  (b <- assertTruth e msg ;; push b ;; k) st =
  if e
  then k {| validationTests := validationTests st ++ [true];
            assertions := msg :: assertions st;
            converted := converted st |}
  else (Throw (Error msg),
        {| validationTests := validationTests st;
           assertions := msg :: assertions st;
           converted := converted st |}).
Proof. unfold bind, assertTruth, push. destruct e; reflexivity. Qed.

Lemma some_not_false_app_true (tests : list bool) :
  some_not_false (tests ++ [true]) = true.
Proof.
  unfold some_not_false. rewrite existsb_app. cbn. apply orb_true_r.
Qed.

(** The fail-safe that ends every validator, run after a push of [true]. *)
Lemma fail_safe_after_push (fail : M bool) tests log conv :
  (tests' <- get_validationTests ;;
   if negb (some_not_false tests') then fail else ret true)
    {| validationTests := tests ++ [true]; assertions := log;
       converted := conv |}
  = (Return true,
     {| validationTests := tests ++ [true]; assertions := log;
        converted := conv |}).
Proof.
  unfold bind, get_validationTests. cbn [validationTests].
  rewrite some_not_false_app_true. reflexivity.
Qed.

Ltac run_checks :=
  repeat (rewrite ?assert_push, ?fail_safe_after_push;
          cbn [validationTests assertions converted app]).

(** ** What each of the four short validators computes *)

Lemma safeIntegerValidator_run f v st :
  safeIntegerValidator f v st =
  let log k := (Messages.safeInteger, k) in
  if JS.ge0 (ToNumber_at f (converted st) v)
  then
    if isSafeInteger v
    then (Return true,
          {| validationTests := [true; true; true];
             assertions := log Messages.notSafe :: log Messages.notPositive
                           :: log Messages.notNumber :: assertions st;
             converted := conversions_after v (converted st) |})
    else (Throw (Error (log Messages.notSafe)),
          {| validationTests := [true; true];
             assertions := log Messages.notSafe :: log Messages.notPositive
                           :: log Messages.notNumber :: assertions st;
             converted := conversions_after v (converted st) |})
  else (Throw (Error (log Messages.notPositive)),
        {| validationTests := [true];
           assertions := log Messages.notPositive
                         :: log Messages.notNumber :: assertions st;
           converted := conversions_after v (converted st) |}).
Proof.
  unfold safeIntegerValidator.
  rewrite (bind_Return new_validationTests _ st tt
             {| validationTests := []; assertions := assertions st;
                converted := converted st |} eq_refl).
  run_checks.
  erewrite (bind_Return (to_number f v)) by reflexivity.
  cbn [validationTests assertions converted].
  run_checks.
  destruct (JS.ge0 (ToNumber_at f (converted st) v)); [| reflexivity].
  run_checks.
  destruct (isSafeInteger v); reflexivity.
Qed.

Lemma bigNumberValidator_run v st :
  bigNumberValidator v st =
  let log k := (Messages.bigNumber, k) in
  if stringify_throws v
  then (Throw TypeError,
        {| validationTests := []; assertions := assertions st;
           converted := converted st |})
  else if isBN v
  then (Return true,
        {| validationTests := [true];
           assertions := log Messages.notBigNumber :: assertions st;
           converted := converted st |})
  else (Throw (Error (log Messages.notBigNumber)),
        {| validationTests := [];
           assertions := log Messages.notBigNumber :: assertions st;
           converted := converted st |}).
Proof.
  unfold bigNumberValidator.
  rewrite (bind_Return new_validationTests _ st tt
             {| validationTests := []; assertions := assertions st;
                converted := converted st |} eq_refl).
  rewrite bind_stringify. cbv zeta.
  destruct (stringify_throws v); [reflexivity |].
  run_checks.
  destruct (isBN v); reflexivity.
Qed.

Lemma hexSequenceValidator_run d v st :
  hexSequenceValidator d v st =
  let log k := (Messages.hexSequence, k) in
  match v with
  | VString s =>
      if HEX_STRING (MATCH d) s
      then (Return true,
            {| validationTests := [true; true];
               assertions := log Messages.notFormat
                             :: log Messages.notStringSequence
                             :: assertions st;
               converted := converted st |})
      else (Throw (Error (log Messages.notFormat)),
            {| validationTests := [true];
               assertions := log Messages.notFormat
                             :: log Messages.notStringSequence
                             :: assertions st;
               converted := converted st |})
  | _ =>
      if stringify_throws v
      then (Throw TypeError,
            {| validationTests := []; assertions := assertions st;
               converted := converted st |})
      else (Throw (Error (log Messages.notStringSequence)),
            {| validationTests := [];
               assertions := log Messages.notStringSequence :: assertions st;
               converted := converted st |})
  end.
Proof.
  unfold hexSequenceValidator.
  rewrite (bind_Return new_validationTests _ st tt
             {| validationTests := []; assertions := assertions st;
                converted := converted st |} eq_refl).
  rewrite bind_stringify. cbv zeta.
  destruct v; cbn [stringify_throws];
    try (run_checks; reflexivity);
    try (destruct (obj_stringify_throws o); run_checks; reflexivity).
  run_checks.
  cbn [typeof_string value_match]. rewrite bind_ret. run_checks.
  destruct (HEX_STRING (MATCH d) s); reflexivity.
Qed.

Lemma addressValidator_run d v st :
  addressValidator d v st =
  let log k := (Messages.address, k) in
  match v with
  | VString s =>
      if Nat.eqb (String.length s) 40 || Nat.eqb (String.length s) 42
      then
        if ADDRESS (MATCH d) s
        then
          if isValidChecksumAddress v
          then (Return true,
                {| validationTests := [true; true; true; true];
                   assertions := log Messages.notChecksum
                                 :: log Messages.notFormat
                                 :: log Messages.notStringSequence
                                 :: log Messages.notStringSequence
                                 :: assertions st;
                   converted := converted st |})
          else (Throw (Error (log Messages.notChecksum)),
                {| validationTests := [true; true; true];
                   assertions := log Messages.notChecksum
                                 :: log Messages.notFormat
                                 :: log Messages.notStringSequence
                                 :: log Messages.notStringSequence
                                 :: assertions st;
                   converted := converted st |})
        else (Throw (Error (log Messages.notFormat)),
              {| validationTests := [true; true];
                 assertions := log Messages.notFormat
                               :: log Messages.notStringSequence
                               :: log Messages.notStringSequence
                               :: assertions st;
                 converted := converted st |})
      else (Throw (Error (log Messages.notStringSequence)),
            {| validationTests := [true];
               assertions := log Messages.notStringSequence
                             :: log Messages.notStringSequence
                             :: assertions st;
               converted := converted st |})
  | _ =>
      if stringify_throws v
      then (Throw TypeError,
            {| validationTests := []; assertions := assertions st;
               converted := converted st |})
      else (Throw (Error (log Messages.notStringSequence)),
            {| validationTests := [];
               assertions := log Messages.notStringSequence :: assertions st;
               converted := converted st |})
  end.
Proof.
  unfold addressValidator.
  rewrite (bind_Return new_validationTests _ st tt
             {| validationTests := []; assertions := assertions st;
                converted := converted st |} eq_refl).
  rewrite bind_stringify. cbv zeta.
  destruct v; cbn [stringify_throws];
    try (run_checks; reflexivity);
    try (destruct (obj_stringify_throws o); run_checks; reflexivity).
  run_checks.
  cbn [typeof_string value_length value_match length_eq].
  rewrite bind_ret. run_checks. cbn [length_eq].
  destruct (Nat.eqb (String.length s) 40 || Nat.eqb (String.length s) 42);
    [| reflexivity].
  rewrite bind_ret. run_checks.
  destruct (ADDRESS (MATCH d) s); [| reflexivity].
  run_checks.
  destruct (isValidChecksumAddress (VString s)); reflexivity.
Qed.

(** ** What [derivationPathValidator] computes *)

Lemma derivationPathValidator_not_string d v st :
  typeof_string v = false ->
  derivationPathValidator d v st =
  (Throw (Error (Messages.derivationPath, Messages.notString)),
   {| validationTests := [];
      assertions := (Messages.derivationPath, Messages.notString)
                    :: assertions st;
      converted := converted st |}).
Proof.
  intros Hv. unfold derivationPathValidator.
  rewrite (bind_Return new_validationTests _ st tt
             {| validationTests := []; assertions := assertions st;
                converted := converted st |} eq_refl).
  destruct v; try discriminate Hv; reflexivity.
Qed.

Lemma derivationPathValidator_parts d s st :
  List.length (JS.split (DELIMITER (PATH d)) s) <> 4%nat ->
  derivationPathValidator d (VString s) st = fails_at 1 st.
Proof.
  intros Hlen. unfold derivationPathValidator.
  rewrite (bind_Return new_validationTests _ st tt
             {| validationTests := []; assertions := assertions st;
                converted := converted st |} eq_refl).
  erewrite bind_Return by reflexivity.
  rewrite assert_push.
  apply Nat.eqb_neq in Hlen. rewrite Hlen. reflexivity.
Qed.

Lemma derivationPathValidator_run d s st a b c e :
  JS.split (DELIMITER (PATH d)) s = [a; b; c; e] ->
  derivationPathValidator d (VString s) st =
  match index (JS.split (SPLITTER d) a) 0 with
  | None => (Throw TypeError, passed 1 st)
  | Some h =>
      if negb (String.eqb (JS.toLowerCase h) (HEADER_KEY (PATH d)))
      then fails_at 2 st
      else if negb (JS.strict_eq
                      (JS.parseInt (index (JS.split (SPLITTER d) a) 1))
                      (PURPOSE (PATH d)))
      then fails_at 3 st
      else if negb (JS.strict_eq (JS.parseInt (Some b)) (COIN_MAINNET (PATH d))
                    || JS.strict_eq (JS.parseInt (Some b))
                         (COIN_TESTNET (PATH d)))
      then fails_at 4 st
      else if negb (DIGITS (MATCH d) c)
      then fails_at 5 st
      else if negb (forallb (DIGITS (MATCH d)) (JS.split (SPLITTER d) e))
      then fails_at 6 st
      else if negb (Nat.leb (List.length (JS.split (SPLITTER d) e)) 2)
      then fails_at 7 st
      else (Return true, passed 7 st)
  end.
Proof.
  intros Hsplit. unfold derivationPathValidator.
  rewrite (bind_Return new_validationTests _ st tt
             {| validationTests := []; assertions := assertions st;
                converted := converted st |} eq_refl).
  erewrite bind_Return by reflexivity.
  cbn [value_split]. rewrite Hsplit.
  rewrite assert_push. cbn [List.length Nat.eqb validationTests assertions app].
  change (index [a; b; c; e] 0) with (Some a).
  change (index [a; b; c; e] 1) with (Some b).
  change (index [a; b; c; e] 2) with (Some c).
  change (index [a; b; c; e] 3) with (Some e).
  cbn [split_of match_of]. rewrite !bind_ret.
  destruct (index (JS.split (SPLITTER d) a) 0) as [h |]; [| reflexivity].
  cbn [toLowerCase_of]. rewrite bind_ret.
  rewrite assert_push. cbn [validationTests assertions app].
  destruct (String.eqb (JS.toLowerCase h) (HEADER_KEY (PATH d)));
    [| reflexivity].
  rewrite bind_ret, assert_push. cbn [validationTests assertions app negb].
  destruct (JS.strict_eq _ (PURPOSE (PATH d))); [| reflexivity].
  rewrite assert_push. cbn [validationTests assertions app negb].
  destruct (JS.strict_eq _ (COIN_MAINNET (PATH d)) || _); [| reflexivity].
  rewrite bind_ret, assert_push. cbn [validationTests assertions app negb].
  destruct (DIGITS (MATCH d) c); [| reflexivity].
  rewrite bind_ret, assert_push. cbn [validationTests assertions app negb].
  replace (forallb (fun truth => negb (Bool.eqb truth false))
             (map (fun value0 => DIGITS (MATCH d) value0)
                (JS.split (SPLITTER d) e)))
    with (forallb (DIGITS (MATCH d)) (JS.split (SPLITTER d) e)).
  2:{ induction (JS.split (SPLITTER d) e) as [| x l IH]; [reflexivity |].
      cbn [map forallb]. rewrite IH.
      destruct (DIGITS (MATCH d) x); reflexivity. }
  destruct (forallb _ _); [| reflexivity].
  rewrite bind_ret, assert_push. cbn [validationTests assertions app negb].
  destruct (Nat.leb _ 2); reflexivity.
Qed.

(** ** The safe integer validator *)

(** C3: [safeIntegerValidator(9007199254740991)] returns [true],
    [safeIntegerValidator(9007199254740992)] raises the failure [notSafe]
    (Unsafe) and [safeIntegerValidator(-1)] raises the failure
    [notPositive] (Negative); on every value the [>= 0] check is decided
    before the safe-integer check, so a value that is not [>= 0] fails as
    Negative whatever the safe-integer check would say. *)
Theorem safeIntegerValidator_examples (f : string -> JS.number) :
  call (safeIntegerValidator f (VNumber (JS.number_of_Z 9007199254740991)))
  = Return true
  /\ call (safeIntegerValidator f (VNumber (JS.number_of_Z 9007199254740992)))
     = Throw (Error (Messages.safeInteger, Messages.notSafe))
  /\ call (safeIntegerValidator f (VNumber (JS.number_of_Z (-1))))
     = Throw (Error (Messages.safeInteger, Messages.notPositive))
  /\ forall v : value,
       call (safeIntegerValidator f v) =
       if JS.ge0 (ToNumber f v)
       then if isSafeInteger v
            then Return true
            else Throw (Error (Messages.safeInteger, Messages.notSafe))
       else Throw (Error (Messages.safeInteger, Messages.notPositive)).
Proof.
  assert (H : forall v : value,
             call (safeIntegerValidator f v) =
             if JS.ge0 (ToNumber f v)
             then if isSafeInteger v
                  then Return true
                  else Throw (Error (Messages.safeInteger, Messages.notSafe))
             else Throw (Error (Messages.safeInteger, Messages.notPositive))).
  { intros v. unfold call. rewrite safeIntegerValidator_run. cbv zeta.
    change (ToNumber_at f (converted initial) v) with (ToNumber f v).
    destruct (JS.ge0 (ToNumber f v)); [| reflexivity].
    destruct (isSafeInteger v); reflexivity. }
  repeat split; try apply H; rewrite H; reflexivity.
Qed.

(** C4: on every value, of whatever type, [safeIntegerValidator] never
    raises the failure [notNumber]: the expression of its first assertion
    is the constant [true].  Its outcome is [true], Negative or Unsafe. *)
Theorem safeIntegerValidator_never_notNumber
  (f : string -> JS.number) (v : value) (st : state) :
  raises (fst (safeIntegerValidator f v st))
    (Messages.safeInteger, Messages.notNumber) = false
  /\ (fst (safeIntegerValidator f v st) = Return true
      \/ fst (safeIntegerValidator f v st)
         = Throw (Error (Messages.safeInteger, Messages.notPositive))
      \/ fst (safeIntegerValidator f v st)
         = Throw (Error (Messages.safeInteger, Messages.notSafe))).
Proof.
  rewrite safeIntegerValidator_run. cbv zeta.
  destruct (JS.ge0 _); [destruct (isSafeInteger v) |];
    cbn [fst]; split; auto.
Qed.

(** ** The address validator *)

(** C5: on every string whose length is neither 40 nor 42,
    [addressValidator] raises a failure that carries the catalog entry
    [address.notStringSequence] ("... is not a valid String"), the entry
    its length assertion is given, and not the entry [address.notLength];
    the two entries are different texts. *)
Theorem addressValidator_bad_length (d : Defaults) (s : string) :
  String.length s <> 40%nat ->
  String.length s <> 42%nat ->
  call (addressValidator d (VString s))
  = Throw (Error (Messages.address, Messages.notStringSequence))
  /\ raises (call (addressValidator d (VString s)))
       (Messages.address, Messages.notLength) = false
  /\ message_text (Messages.address, Messages.notStringSequence)
     <> message_text (Messages.address, Messages.notLength).
Proof.
  intros H40 H42. unfold call. rewrite addressValidator_run. cbv zeta.
  apply Nat.eqb_neq in H40, H42. rewrite H40, H42. cbn [orb fst].
  repeat split. discriminate.
Qed.

Lemma addressValidator_bad_length_witness :
  call (addressValidator spec_defaults
          (VString "0x5aAeb6053F3E94C9b9A09f33669435E7Ef1Be"))
  = Throw (Error (Messages.address, Messages.notStringSequence))
  /\ raises (call (addressValidator spec_defaults
                     (VString "0x5aAeb6053F3E94C9b9A09f33669435E7Ef1Be")))
       (Messages.address, Messages.notLength) = false
  /\ message_text (Messages.address, Messages.notStringSequence)
     <> message_text (Messages.address, Messages.notLength).
Proof.
  apply (addressValidator_bad_length spec_defaults
           "0x5aAeb6053F3E94C9b9A09f33669435E7Ef1Be");
    vm_compute; lia.
Defined.

(** ** The hex sequence validator *)

Lemma all_chars_Forall (p : ascii -> bool) (s : string) :
  all_chars p s = true <-> Forall (fun c => p c = true) (list_ascii_of_string s).
Proof.
  induction s as [| c s IH]; cbn [all_chars list_ascii_of_string].
  - split; [constructor | reflexivity].
  - rewrite andb_true_iff, IH. split.
    + intros [Hc Hs]. constructor; assumption.
    + intros H. inversion H; subst. split; assumption.
Qed.

Lemma even_hex_body_spec (s : string) :
  even_hex_body s = true <->
  Nat.Even (String.length s)
  /\ Forall (fun c => JS.is_hex c = true) (list_ascii_of_string s).
Proof.
  unfold even_hex_body.
  rewrite andb_true_iff, Nat.even_spec, all_chars_Forall. reflexivity.
Qed.

Lemma prefix_0x (s : string) :
  prefix "0x" s = true -> s = "0x" ++ strip_0x s.
Proof.
  destruct s as [| c1 [| c2 s]]; cbn [prefix]; intros H;
    try discriminate H.
  - destruct (ascii_dec "0" c1); discriminate H.
  - destruct (ascii_dec "0" c1) as [<- |]; [| discriminate H].
    destruct (ascii_dec "x" c2) as [<- |]; [| discriminate H].
    reflexivity.
Qed.

Lemma prefix_0x_append (body : string) : prefix "0x" ("0x" ++ body) = true.
Proof. destruct body; reflexivity. Qed.

(** The pattern [HEX_STRING] of the defaults matches exactly the language
    the spec describes. *)
Lemma spec_HEX_STRING_language (s : string) :
  spec_HEX_STRING s = true <-> hex_sequence_language s.
Proof.
  unfold spec_HEX_STRING, hex_sequence_language.
  rewrite orb_true_iff, andb_true_iff, !even_hex_body_spec. split.
  - intros [H | [Hp H]].
    + exists s. split; [left; reflexivity | exact H].
    + exists (strip_0x s). split; [right; apply prefix_0x, Hp | exact H].
  - intros [body [[-> | ->] H]].
    + left. exact H.
    + right. split; [apply prefix_0x_append | exact H].
Qed.

(** C8: [hexSequenceValidator("0xdeadbeef")] returns [true],
    [hexSequenceValidator("not-hex")] raises the failure [notFormat]
    (BadFormat) and [hexSequenceValidator(42)] raises the failure
    [notStringSequence] (NotString); the values it accepts are exactly
    the strings of an even number of hexadecimal digits with an optional
    [0x] prefix. *)
Theorem hexSequenceValidator_examples :
  call (hexSequenceValidator spec_defaults (VString "0xdeadbeef"))
  = Return true
  /\ call (hexSequenceValidator spec_defaults (VString "not-hex"))
     = Throw (Error (Messages.hexSequence, Messages.notFormat))
  /\ call (hexSequenceValidator spec_defaults (VNumber (JS.number_of_Z 42)))
     = Throw (Error (Messages.hexSequence, Messages.notStringSequence))
  /\ forall v : value,
       call (hexSequenceValidator spec_defaults v) = Return true
       <-> exists s : string, v = VString s /\ hex_sequence_language s.
Proof.
  repeat split; try reflexivity.
  - unfold call. rewrite hexSequenceValidator_run. cbv zeta.
    destruct v; cbn [fst]; try (destruct (stringify_throws _); discriminate).
    change (HEX_STRING (MATCH spec_defaults) s) with (spec_HEX_STRING s).
    destruct (spec_HEX_STRING s) eqn:Hs; cbn [fst]; [| discriminate].
    intros _. exists s. split; [reflexivity |].
    apply spec_HEX_STRING_language, Hs.
  - intros [s [-> Hs]]. apply spec_HEX_STRING_language in Hs.
    unfold call. rewrite hexSequenceValidator_run. cbv zeta.
    change (HEX_STRING (MATCH spec_defaults) s) with (spec_HEX_STRING s).
    rewrite Hs. reflexivity.
Qed.

Lemma hexSequenceValidator_examples_witness :
  exists s : string, VString "0xdeadbeef" = VString s /\ hex_sequence_language s.
Proof.
  apply (proj1 (proj2 (proj2 (proj2 hexSequenceValidator_examples))
                  (VString "0xdeadbeef"))).
  reflexivity.
Defined.

(** ** Splitting a string *)

Lemma append_nil_right (s : string) : s ++ "" = s.
Proof. induction s as [| c s IH]; cbn; [| rewrite IH]; reflexivity. Qed.

Lemma append_cons_shift (acc : string) (c : ascii) (s : string) :
  (acc ++ String c "") ++ s = acc ++ String c s.
Proof. induction acc as [| a acc IH]; cbn; [| rewrite IH]; reflexivity. Qed.

Lemma split_go_not_nil (sep : string) (s : string) :
  forall skip acc, JS.split_go sep skip acc s <> [].
Proof.
  induction s as [| c s IH]; intros skip acc; cbn [JS.split_go].
  - discriminate.
  - destruct skip; [| apply IH].
    destruct (prefix sep (String c s)); [discriminate | apply IH].
Qed.

(** With a separator that is not empty, [split] yields at least one
    segment, so element 0 of its result is defined. *)
Lemma split_head (sep s : string) :
  sep <> "" -> exists h, index (JS.split sep s) 0 = Some h.
Proof.
  intros Hsep. destruct sep as [| c sep]; [contradiction |].
  unfold JS.split.
  destruct (JS.split_go (String c sep) 0 "" s) as [| h l] eqn:E.
  - exfalso. exact (split_go_not_nil _ _ _ _ E).
  - exists h. reflexivity.
Qed.

Lemma prefix_In_prefixes (a : string) :
  forall t, prefix a t = true -> In a (prefixes t).
Proof.
  induction a as [| c a IH]; intros t H.
  - destruct t; left; reflexivity.
  - destruct t as [| c' t]; cbn [prefix] in H; [discriminate |].
    destruct (ascii_dec c c') as [<- |]; [| discriminate].
    right. apply in_map, IH, H.
Qed.

(** A separator that occurs nowhere leaves the string in one piece. *)
Lemma split_go_no_occurrence (sep : string) (s : string) :
  forall acc,
    (forall t, In t (suffixes s) -> prefix sep t = false) ->
    JS.split_go sep 0 acc s = [acc ++ s].
Proof.
  induction s as [| c s IH]; intros acc H; cbn [JS.split_go].
  - rewrite append_nil_right. reflexivity.
  - rewrite (H (String c s)) by (left; reflexivity).
    rewrite IH.
    + rewrite append_cons_shift. reflexivity.
    + intros t Ht. apply H. right. exact Ht.
Qed.

(** A separator that cuts a string is one of its substrings. *)
Lemma split_cuts (sep s : string) :
  sep <> "" -> JS.split sep s <> [s] -> In sep (substrings s).
Proof.
  intros Hsep Hcut.
  destruct (existsb (prefix sep) (suffixes s)) eqn:E.
  - apply existsb_exists in E. destruct E as [t [Ht Hp]].
    unfold substrings. apply in_flat_map. exists t.
    split; [exact Ht | apply prefix_In_prefixes, Hp].
  - exfalso. apply Hcut.
    destruct sep as [| c sep]; [contradiction |]. unfold JS.split.
    apply (split_go_no_occurrence (String c sep) s "").
    intros t Ht. destruct (prefix (String c sep) t) eqn:Hp; [| reflexivity].
    assert (Hex : existsb (prefix (String c sep)) (suffixes s) = true)
      by (apply existsb_exists; exists t; split; assumption).
    rewrite Hex in E. discriminate.
Qed.

(** Whatever the delimiter, if ["m/44'/60/0/0"] splits into four segments
    then the delimiter is ["0"] and the segments are these. *)
Lemma standard_path_four_segments (delimiter : string) :
  List.length (JS.split delimiter "m/44'/60/0/0") = 4%nat ->
  JS.split delimiter "m/44'/60/0/0" = ["m/44'/6"; "/"; "/"; ""].
Proof.
  intros Hlen.
  destruct (string_dec delimiter "") as [-> | Hsep];
    [vm_compute in Hlen; discriminate |].
  destruct (list_eq_dec string_dec (JS.split delimiter "m/44'/60/0/0")
              ["m/44'/60/0/0"]) as [E | E].
  - rewrite E in Hlen. discriminate.
  - apply (split_cuts _ _ Hsep) in E.
    assert (Hall : forallb
                     (fun sep =>
                        if Nat.eqb (List.length (JS.split sep "m/44'/60/0/0")) 4
                        then same_strings (JS.split sep "m/44'/60/0/0")
                               ["m/44'/6"; "/"; "/"; ""]
                        else true)
                     (substrings "m/44'/60/0/0") = true)
      by (vm_compute; reflexivity).
    rewrite forallb_forall in Hall. specialize (Hall _ E).
    rewrite Hlen in Hall. cbn [Nat.eqb] in Hall. unfold same_strings in Hall.
    destruct (list_eq_dec string_dec _ _) as [E' |]; [exact E' | discriminate].
Qed.

Lemma strict_eq_NaN (x : JS.number) : JS.strict_eq JS.NaN x = false.
Proof. destruct x; reflexivity. Qed.

(** No choice of the constants of [./defaults] makes the validator accept
    ["m/44'/60/0/0"]. *)
Lemma standard_path_rejected (d : Defaults) :
  exists e : exn,
    call (derivationPathValidator d (VString "m/44'/60/0/0")) = Throw e.
Proof.
  unfold call.
  destruct (Nat.eq_dec
              (List.length (JS.split (DELIMITER (PATH d)) "m/44'/60/0/0")) 4)
    as [Hlen | Hlen].
  - apply standard_path_four_segments in Hlen.
    rewrite (derivationPathValidator_run d _ initial _ _ _ _ Hlen).
    destruct (index _ 0); [| eexists; reflexivity].
    destruct (negb (String.eqb _ _)); [eexists; reflexivity |].
    destruct (negb (JS.strict_eq _ (PURPOSE (PATH d))));
      [eexists; reflexivity |].
    change (JS.parseInt (Some "/")) with JS.NaN.
    rewrite !strict_eq_NaN. eexists; reflexivity.
  - rewrite (derivationPathValidator_parts d _ initial Hlen).
    eexists; reflexivity.
Qed.

(** ** The derivation path validator *)

(** Whenever the validator returns [true] on a string, the string splits
    into exactly four segments and the fourth has at most two
    sub-segments. *)
Lemma derivationPathValidator_accepts (d : Defaults) (s : string) (st : state) :
  fst (derivationPathValidator d (VString s) st) = Return true ->
  exists a b c e : string,
    JS.split (DELIMITER (PATH d)) s = [a; b; c; e]
    /\ (List.length (JS.split (SPLITTER d) e) <= 2)%nat.
Proof.
  destruct (Nat.eq_dec (List.length (JS.split (DELIMITER (PATH d)) s)) 4)
    as [Hlen | Hlen].
  - destruct (JS.split (DELIMITER (PATH d)) s)
      as [| a [| b [| c [| e [| x l]]]]] eqn:Hsplit; try discriminate Hlen.
    rewrite (derivationPathValidator_run d s st a b c e Hsplit).
    intros H. exists a, b, c, e. split; [reflexivity |].
    destruct (index _ 0); [| discriminate H].
    repeat match type of H with
           | fst (if negb ?x then _ else _) = _ =>
               destruct x eqn:?; cbn [negb] in H; [| discriminate H]
           end.
    apply Nat.leb_le. assumption.
  - rewrite (derivationPathValidator_parts d s st Hlen). discriminate.
Qed.

(** The claim C1 fails on its three paths: with the path delimiter [/]
    the first one splits into five segments and is rejected. *)
Lemma derivationPathValidator_examples_fail :
  ~ (call (derivationPathValidator spec_defaults (VString "m/44'/60/0/0"))
     = Return true
     /\ call (derivationPathValidator spec_defaults (VString "m/44'/60/0/0/1"))
        = Return true
     /\ call (derivationPathValidator spec_defaults
                (VString "m/44'/60/0/0/1/2"))
        = Throw (Error (Messages.derivationPath,
                        Messages.notValidAccountIndex))).
Proof. intros [H _]. vm_compute in H. discriminate H. Qed.

(** C1, amended: with the path delimiter [/] and the sub-delimiter ['],
    the paths ["m/44'/60/0/0"], ["m/44'/60/0/0/1"] and
    ["m/44'/60/0/0/1/2"] split into five, six and seven segments and
    raise the failure [notValidParts] (WrongPartCount), and no choice of
    the constants makes the validator accept the first of them.  The
    invariant stands: a string on which the validator returns [true]
    splits into exactly four segments, the fourth of at most two
    sub-segments; ["m'44/60/0/0"] and ["m'44/60/0/0'1"] return [true] and
    ["m'44/60/0/0'1'2"], whose fourth segment has three sub-segments,
    raises the failure [notValidAccountIndex] (BadIndexCount). *)
Theorem derivationPathValidator_examples :
  call (derivationPathValidator spec_defaults (VString "m/44'/60/0/0"))
  = Throw (Error (Messages.derivationPath, Messages.notValidParts))
  /\ call (derivationPathValidator spec_defaults (VString "m/44'/60/0/0/1"))
     = Throw (Error (Messages.derivationPath, Messages.notValidParts))
  /\ call (derivationPathValidator spec_defaults (VString "m/44'/60/0/0/1/2"))
     = Throw (Error (Messages.derivationPath, Messages.notValidParts))
  /\ (forall d : Defaults,
        exists e : exn,
          call (derivationPathValidator d (VString "m/44'/60/0/0")) = Throw e)
  /\ call (derivationPathValidator spec_defaults (VString "m'44/60/0/0"))
     = Return true
  /\ call (derivationPathValidator spec_defaults (VString "m'44/60/0/0'1"))
     = Return true
  /\ call (derivationPathValidator spec_defaults (VString "m'44/60/0/0'1'2"))
     = Throw (Error (Messages.derivationPath, Messages.notValidAccountIndex))
  /\ (forall (d : Defaults) (s : string),
        call (derivationPathValidator d (VString s)) = Return true ->
        exists a b c e : string,
          JS.split (DELIMITER (PATH d)) s = [a; b; c; e]
          /\ (List.length (JS.split (SPLITTER d) e) <= 2)%nat).
Proof.
  split; [vm_compute; reflexivity |].
  split; [vm_compute; reflexivity |].
  split; [vm_compute; reflexivity |].
  split; [exact standard_path_rejected |].
  split; [vm_compute; reflexivity |].
  split; [vm_compute; reflexivity |].
  split; [vm_compute; reflexivity |].
  intros d s. apply derivationPathValidator_accepts.
Qed.

Lemma derivationPathValidator_examples_witness :
  exists a b c e : string,
    JS.split (DELIMITER (PATH spec_defaults)) "m'44/60/0/0'1" = [a; b; c; e]
    /\ (List.length (JS.split (SPLITTER spec_defaults) e) <= 2)%nat.
Proof.
  apply (proj2 (proj2 (proj2 (proj2 (proj2 (proj2 (proj2
           derivationPathValidator_examples))))))
           spec_defaults "m'44/60/0/0'1").
  vm_compute. reflexivity.
Defined.

(** The claim C7 fails: on the number 42 the validator throws the
    failure [notString] from inside the [catch] block; nothing is pushed
    to [validationTests] and the assertion on the number of parts is
    never called. *)
Lemma derivationPathValidator_number_aborts :
  derivationPathValidator spec_defaults (VNumber (JS.number_of_Z 42)) initial
  = (Throw (Error (Messages.derivationPath, Messages.notString)),
     {| validationTests := [];
        assertions := [(Messages.derivationPath, Messages.notString)];
        converted := 0 |})
  /\ ~ In (Messages.derivationPath, Messages.notValidParts)
         (assertions
            (snd (derivationPathValidator spec_defaults
                    (VNumber (JS.number_of_Z 42)) initial))).
Proof.
  split; [reflexivity |].
  cbn. intros [H | []]. discriminate H.
Qed.

(** C7, amended: on a value that is not a string the split fails, the
    failure is caught, and the assertion made in the [catch] block throws
    the failure [notString] at once: the call ends there, with nothing
    pushed to [validationTests] and no later assertion called. *)
Theorem derivationPathValidator_non_string (d : Defaults) (v : value) :
  typeof_string v = false ->
  call (derivationPathValidator d v)
  = Throw (Error (Messages.derivationPath, Messages.notString))
  /\ validationTests (snd (derivationPathValidator d v initial)) = []
  /\ assertions (snd (derivationPathValidator d v initial))
     = [(Messages.derivationPath, Messages.notString)].
Proof.
  intros Hv. unfold call.
  rewrite (derivationPathValidator_not_string d v initial Hv).
  split; [reflexivity |]. split; reflexivity.
Qed.

Lemma derivationPathValidator_non_string_witness :
  call (derivationPathValidator spec_defaults VUndefined)
  = Throw (Error (Messages.derivationPath, Messages.notString))
  /\ validationTests (snd (derivationPathValidator spec_defaults VUndefined
                             initial)) = []
  /\ assertions (snd (derivationPathValidator spec_defaults VUndefined initial))
     = [(Messages.derivationPath, Messages.notString)].
Proof.
  apply (derivationPathValidator_non_string spec_defaults VUndefined).
  reflexivity.
Defined.

(** C10: with a sub-delimiter that is not the empty string, on every
    string the validator returns [true] or throws one of its own
    failures, never the runtime's [TypeError]; either the assertion on
    the number of parts throws, before any segment is read and with no
    other assertion called, or the split has exactly four segments. *)
Theorem derivationPathValidator_total (d : Defaults) (s : string) (st : state) :
  SPLITTER d <> "" ->
  typed_outcome (fst (derivationPathValidator d (VString s) st)) = true
  /\ (derivationPathValidator d (VString s) st
      = (Throw (Error (Messages.derivationPath, Messages.notValidParts)),
         {| validationTests := [];
            assertions := (Messages.derivationPath, Messages.notValidParts)
                          :: assertions st;
            converted := converted st |})
      \/ List.length (JS.split (DELIMITER (PATH d)) s) = 4%nat).
Proof.
  intros Hsep.
  destruct (Nat.eq_dec (List.length (JS.split (DELIMITER (PATH d)) s)) 4)
    as [Hlen | Hlen].
  - split; [| right; exact Hlen].
    destruct (JS.split (DELIMITER (PATH d)) s)
      as [| a [| b [| c [| e [| x l]]]]] eqn:Hsplit; try discriminate Hlen.
    rewrite (derivationPathValidator_run d s st a b c e Hsplit).
    destruct (split_head (SPLITTER d) a Hsep) as [h ->].
    repeat match goal with
           | |- context [if negb ?x then _ else _] => destruct x; cbn [negb]
           end; reflexivity.
  - rewrite (derivationPathValidator_parts d s st Hlen).
    split; [reflexivity | left; reflexivity].
Qed.

Lemma derivationPathValidator_total_witness :
  typed_outcome
    (fst (derivationPathValidator spec_defaults (VString "m'44/60/0/0") initial))
  = true
  /\ (derivationPathValidator spec_defaults (VString "m'44/60/0/0") initial
      = (Throw (Error (Messages.derivationPath, Messages.notValidParts)),
         {| validationTests := [];
            assertions := (Messages.derivationPath, Messages.notValidParts)
                          :: assertions initial;
            converted := converted initial |})
      \/ List.length
           (JS.split (DELIMITER (PATH spec_defaults)) "m'44/60/0/0") = 4%nat).
Proof.
  apply (derivationPathValidator_total spec_defaults "m'44/60/0/0" initial).
  vm_compute. discriminate.
Defined.

(** ** The fail-safe of the validators *)

Lemma derivationPathValidator_fail_safe (d : Defaults) (v : value) (st : state) :
  fail_safe_unreached (Messages.derivationPath, Messages.genericError)
    (derivationPathValidator d v st) = true.
Proof.
  destruct (typeof_string v) eqn:Hv.
  - destruct v; try discriminate Hv.
    destruct (Nat.eq_dec (List.length (JS.split (DELIMITER (PATH d)) s)) 4)
      as [Hlen | Hlen].
    + destruct (JS.split (DELIMITER (PATH d)) s)
        as [| a [| b [| c [| e [| x l]]]]] eqn:Hsplit; try discriminate Hlen.
      rewrite (derivationPathValidator_run d s st a b c e Hsplit).
      destruct (index _ 0); [| reflexivity].
      repeat match goal with
             | |- context [if negb ?x then _ else _] => destruct x; cbn [negb]
             end; reflexivity.
    + rewrite (derivationPathValidator_parts d s st Hlen). reflexivity.
  - rewrite (derivationPathValidator_not_string d v st Hv). reflexivity.
Qed.

(** C6: with [assertTruth] throwing on a false expression and returning
    [true] otherwise, no validator throws its generic failure on any
    value: whenever a run gets to the test of the fail-safe, the list
    [validationTests] is not empty and holds only [true]. *)
Theorem fail_safe_unreachable
  (d : Defaults) (f : string -> JS.number) (v : value) (st : state) :
  fail_safe_unreached (Messages.derivationPath, Messages.genericError)
    (derivationPathValidator d v st) = true
  /\ fail_safe_unreached (Messages.safeInteger, Messages.genericError)
       (safeIntegerValidator f v st) = true
  /\ fail_safe_unreached (Messages.bigNumber, Messages.genericError)
       (bigNumberValidator v st) = true
  /\ fail_safe_unreached (Messages.address, Messages.genericError)
       (addressValidator d v st) = true
  /\ fail_safe_unreached (Messages.hexSequence, Messages.genericError)
       (hexSequenceValidator d v st) = true.
Proof.
  split; [apply derivationPathValidator_fail_safe |].
  split.
  { rewrite safeIntegerValidator_run. cbv zeta.
    destruct (JS.ge0 _); [destruct (isSafeInteger v) |]; reflexivity. }
  split.
  { rewrite bigNumberValidator_run. cbv zeta.
    destruct (stringify_throws v); [reflexivity |].
    destruct (isBN v); reflexivity. }
  split.
  { rewrite addressValidator_run. cbv zeta.
    destruct v; try (destruct (stringify_throws _); reflexivity).
    destruct (_ || _); [| reflexivity].
    destruct (ADDRESS (MATCH d) s); [| reflexivity].
    destruct (isValidChecksumAddress (VString s)); reflexivity. }
  rewrite hexSequenceValidator_run. cbv zeta.
  destruct v; try (destruct (stringify_throws _); reflexivity).
  destruct (HEX_STRING (MATCH d) s); reflexivity.
Qed.

(** ** Determinism *)
























(** ** The address checksum *)

(** The hash function is Keccak-256 with the original padding: the
    digests of the empty message and of ["abc"]. *)
Example keccak256_empty :
  Keccak.keccak256 [] =
    [ 0xc5; 0xd2; 0x46; 0x01; 0x86; 0xf7; 0x23; 0x3c;
      0x92; 0x7e; 0x7d; 0xb2; 0xdc; 0xc7; 0x03; 0xc0;
      0xe5; 0x00; 0xb6; 0x53; 0xca; 0x82; 0x27; 0x3b;
      0x7b; 0xfa; 0xd8; 0x04; 0x5d; 0x85; 0xa4; 0x70 ].
Proof. vm_compute. reflexivity. Qed.

Example keccak256_abc :
  Keccak.keccak256 (Keccak.bytes_of_string "abc") =
    [ 0x4e; 0x03; 0x65; 0x7a; 0xea; 0x45; 0xa9; 0x4f;
      0xc7; 0xd4; 0x7b; 0xa8; 0x26; 0xc8; 0xd6; 0x67;
      0xc0; 0xd1; 0xe6; 0xe3; 0x3a; 0x64; 0xa0; 0x36;
      0xec; 0x44; 0xf5; 0x8f; 0xa1; 0x2d; 0x6c; 0x45 ].
Proof. vm_compute. reflexivity. Qed.

(** Two addresses in their checksum case are accepted. *)
Example checksum_addresses :
  isValidChecksumAddress (VString "0x5aAeb6053F3E94C9b9A09f33669435E7Ef1BeAed")
  = true
  /\ isValidChecksumAddress
       (VString "0xfB6916095ca1df60bB79Ce92cE3Ea74c37c5d359") = true.
Proof. split; vm_compute; reflexivity. Qed.

Lemma case_matches_spec (hash : list Z) (s : string) :
  forall i0 : nat,
    case_matches i0 hash s = true <->
    (forall (i : nat) (c : ascii),
        String.get i s = Some c ->
        JS.is_upper_hex c || JS.is_lower_hex c = true ->
        (JS.is_upper_hex c = true <-> 8 <= nth (i0 + i) hash 0)).
Proof.
  induction s as [| a s IH]; intros i0; cbn [case_matches].
  - split; [| reflexivity]. intros _ i c H. destruct i; discriminate H.
  - rewrite andb_true_iff, IH. split.
    + intros [Ha Hs] i c Hget Hletter. destruct i as [| i].
      * cbn in Hget. injection Hget as <-. rewrite Hletter in Ha.
        rewrite Nat.add_0_r. apply eqb_prop in Ha. rewrite Ha.
        apply Z.leb_le.
      * cbn in Hget. rewrite <- Nat.add_succ_comm.
        apply Hs; assumption.
    + intros H. split.
      * destruct (JS.is_upper_hex a || JS.is_lower_hex a) eqn:Hletter;
          [| reflexivity].
        specialize (H 0%nat a eq_refl Hletter). rewrite Nat.add_0_r in H.
        rewrite <- Z.leb_le in H.
        destruct (JS.is_upper_hex a), (8 <=? nth i0 hash 0);
          try reflexivity; exfalso.
        -- destruct H as [H _]. specialize (H eq_refl). discriminate H.
        -- destruct H as [_ H]. specialize (H eq_refl). discriminate H.
      * intros i c Hget Hletter. rewrite Nat.add_succ_comm.
        apply (H (S i) c); assumption.
Qed.

Lemma isValidChecksumAddress_rule (s : string) :
  isValidChecksumAddress (VString s) = true <-> checksum_rule s.
Proof.
  unfold isValidChecksumAddress, checksum_rule. cbv zeta.
  rewrite case_matches_spec. reflexivity.
Qed.

(** A string that matches the address pattern has 40 or 42 code units. *)
Lemma spec_ADDRESS_length (s : string) :
  spec_ADDRESS s = true ->
  Nat.eqb (String.length s) 40 || Nat.eqb (String.length s) 42 = true.
Proof.
  unfold spec_ADDRESS, hex_body.
  rewrite !orb_true_iff, !andb_true_iff.
  intros [[H _] | [Hp [H _]]]; [left; exact H | right].
  apply prefix_0x in Hp. rewrite Hp. cbn [append String.length].
  exact H.
Qed.

(** The claim C2 fails: the letters of
    ["0x5aAeb6053f3e94c9b9a09f33669435E7ef1BeAed"] do not have the case
    that the hash of its digits asks for. *)
Lemma addressValidator_examples_fail :
  ~ (call (addressValidator spec_defaults
             (VString "0x5aAeb6053f3e94c9b9a09f33669435E7ef1BeAed"))
     = Return true
     /\ call (addressValidator spec_defaults
                (VString "0x5aaeb6053f3e94c9b9a09f33669435e7ef1beaed"))
        = Throw (Error (Messages.address, Messages.notChecksum))).
Proof. intros [H _]. vm_compute in H. discriminate H. Qed.

(** C2, amended: [addressValidator] returns [true] on
    ["0x5aAeb6053F3E94C9b9A09f33669435E7Ef1BeAed"], the same digits in
    their checksum case, and raises the failure [notChecksum]
    (BadChecksum) on ["0x5aAeb6053f3e94c9b9a09f33669435E7ef1BeAed"] and on
    the all-lowercase string of the same digits.  On every string with
    the [0x] prefix that matches the address pattern the outcome is
    [true] or that failure, and it is [true] exactly when the checksum
    rule holds: each letter among the digits is upper case exactly when
    the digit of the Keccak-256 hash of the lowercase digits at its index
    is 8 or more. *)
Theorem addressValidator_examples :
  call (addressValidator spec_defaults
          (VString "0x5aAeb6053F3E94C9b9A09f33669435E7Ef1BeAed"))
  = Return true
  /\ call (addressValidator spec_defaults
             (VString "0x5aAeb6053f3e94c9b9a09f33669435E7ef1BeAed"))
     = Throw (Error (Messages.address, Messages.notChecksum))
  /\ call (addressValidator spec_defaults
             (VString "0x5aaeb6053f3e94c9b9a09f33669435e7ef1beaed"))
     = Throw (Error (Messages.address, Messages.notChecksum))
  /\ (forall s : string,
        prefix "0x" s = true ->
        spec_ADDRESS s = true ->
        (call (addressValidator spec_defaults (VString s)) = Return true
         \/ call (addressValidator spec_defaults (VString s))
            = Throw (Error (Messages.address, Messages.notChecksum)))
        /\ (call (addressValidator spec_defaults (VString s)) = Return true
            <-> checksum_rule s)).
Proof.
  split; [vm_compute; reflexivity |].
  split; [vm_compute; reflexivity |].
  split; [vm_compute; reflexivity |].
  intros s _ Hs. unfold call. rewrite addressValidator_run. cbv zeta.
  rewrite (spec_ADDRESS_length s Hs).
  change (ADDRESS (MATCH spec_defaults) s) with (spec_ADDRESS s). rewrite Hs.
  rewrite <- isValidChecksumAddress_rule.
  destruct (isValidChecksumAddress (VString s)); cbn [fst]; split; auto.
  - split; reflexivity.
  - split; discriminate.
Qed.

Lemma addressValidator_examples_witness :
  (call (addressValidator spec_defaults
           (VString "0xfB6916095ca1df60bB79Ce92cE3Ea74c37c5d359")) = Return true
   \/ call (addressValidator spec_defaults
              (VString "0xfB6916095ca1df60bB79Ce92cE3Ea74c37c5d359"))
      = Throw (Error (Messages.address, Messages.notChecksum)))
  /\ (call (addressValidator spec_defaults
              (VString "0xfB6916095ca1df60bB79Ce92cE3Ea74c37c5d359"))
      = Return true
      <-> checksum_rule "0xfB6916095ca1df60bB79Ce92cE3Ea74c37c5d359").
Proof.
  apply (proj2 (proj2 (proj2 addressValidator_examples))
           "0xfB6916095ca1df60bB79Ce92cE3Ea74c37c5d359");
    vm_compute; reflexivity.
Defined.

(** * Further properties of the validators *)

(** ** The derivation path validator: what it accepts *)

(** X1: [derivationPathValidator] returns [true] on a string exactly when
    the string splits on the delimiter into four segments such that: the
    first piece of the first segment, in lower case, is the header key;
    its second piece parses to the purpose; the second segment parses to
    one of the two coin types; the third segment matches the digits
    pattern; every piece of the fourth segment matches the digits
    pattern, and there are at most two of them. *)
Theorem derivationPathValidator_accepts_iff (d : Defaults) (s : string) :
  call (derivationPathValidator d (VString s)) = Return true
  <-> exists a b c e h : string,
        JS.split (DELIMITER (PATH d)) s = [a; b; c; e]
        /\ index (JS.split (SPLITTER d) a) 0 = Some h
        /\ JS.toLowerCase h = HEADER_KEY (PATH d)
        /\ JS.strict_eq (JS.parseInt (index (JS.split (SPLITTER d) a) 1))
             (PURPOSE (PATH d)) = true
        /\ (JS.strict_eq (JS.parseInt_string b) (COIN_MAINNET (PATH d)) = true
            \/ JS.strict_eq (JS.parseInt_string b) (COIN_TESTNET (PATH d))
               = true)
        /\ DIGITS (MATCH d) c = true
        /\ Forall (fun piece => DIGITS (MATCH d) piece = true)
             (JS.split (SPLITTER d) e)
        /\ (List.length (JS.split (SPLITTER d) e) <= 2)%nat.
Proof.
  unfold call. split.
  - destruct (Nat.eq_dec (List.length (JS.split (DELIMITER (PATH d)) s)) 4)
      as [Hlen | Hlen].
    + destruct (JS.split (DELIMITER (PATH d)) s)
        as [| a [| b [| c [| e [| x l]]]]] eqn:Hsplit; try discriminate Hlen.
      rewrite (derivationPathValidator_run d s initial a b c e Hsplit).
      destruct (index _ 0) as [h |] eqn:Hh; [| discriminate].
      destruct (String.eqb (JS.toLowerCase h) (HEADER_KEY (PATH d))) eqn:H1;
        cbn [negb]; [| discriminate].
      destruct (JS.strict_eq _ (PURPOSE (PATH d))) eqn:H2;
        cbn [negb]; [| discriminate].
      destruct (JS.strict_eq _ (COIN_MAINNET (PATH d)) || _) eqn:H3;
        cbn [negb]; [| discriminate].
      destruct (DIGITS (MATCH d) c) eqn:H4; cbn [negb]; [| discriminate].
      destruct (forallb _ _) eqn:H5; cbn [negb]; [| discriminate].
      destruct (Nat.leb _ 2) eqn:H6; cbn [negb]; [| discriminate].
      intros _. exists a, b, c, e, h.
      apply String.eqb_eq in H1. apply orb_true_iff in H3.
      rewrite forallb_forall, <- Forall_forall in H5. apply Nat.leb_le in H6.
      repeat (split; [assumption || reflexivity |]). exact H6.
    + rewrite (derivationPathValidator_parts d s initial Hlen). discriminate.
  - intros (a & b & c & e & h & Hsplit & Hh & H1 & H2 & H3 & H4 & H5 & H6).
    rewrite (derivationPathValidator_run d s initial a b c e Hsplit).
    rewrite Hh. apply String.eqb_eq in H1. rewrite H1, H2.
    apply orb_true_iff in H3. cbn [JS.parseInt]. rewrite H3, H4.
    rewrite Forall_forall, <- forallb_forall in H5. rewrite H5.
    apply Nat.leb_le in H6. rewrite H6. reflexivity.
Qed.

Lemma derivationPathValidator_accepts_iff_witness :
  call (derivationPathValidator spec_defaults (VString "M'044/ +60abc/7/0'12"))
  = Return true.
Proof.
  apply (proj2 (derivationPathValidator_accepts_iff spec_defaults
                  "M'044/ +60abc/7/0'12")).
  exists "M'044", " +60abc", "7", "0'12", "M".
  repeat split; try reflexivity.
  - left. reflexivity.
  - repeat constructor.
Defined.

(** X2: the outcome on a four-segment path depends on the first two
    segments only through the header piece in lower case and the numbers
    that [parseInt] reads from the purpose piece and from the coin-type
    segment: two paths with the same third and fourth segments that agree
    on these three observations have the same outcome.  So a header in
    upper case, leading zeros or white space, a sign, characters after
    the digits and further pieces of the first segment all go unnoticed. *)
Theorem derivationPathValidator_observes
  (d : Defaults) (s s' a a' b b' c e : string) (st st' : state) :
  JS.split (DELIMITER (PATH d)) s = [a; b; c; e] ->
  JS.split (DELIMITER (PATH d)) s' = [a'; b'; c; e] ->
  option_map JS.toLowerCase (index (JS.split (SPLITTER d) a) 0)
  = option_map JS.toLowerCase (index (JS.split (SPLITTER d) a') 0) ->
  JS.parseInt (index (JS.split (SPLITTER d) a) 1)
  = JS.parseInt (index (JS.split (SPLITTER d) a') 1) ->
  JS.parseInt_string b = JS.parseInt_string b' ->
  fst (derivationPathValidator d (VString s) st)
  = fst (derivationPathValidator d (VString s') st').
Proof.
  intros Hs Hs' Hh Hp Hb.
  rewrite (derivationPathValidator_run d s st a b c e Hs).
  rewrite (derivationPathValidator_run d s' st' a' b' c e Hs').
  cbn [JS.parseInt]. rewrite <- Hp, <- Hb.
  destruct (index (JS.split (SPLITTER d) a) 0) as [h |],
           (index (JS.split (SPLITTER d) a') 0) as [h' |];
    cbn [option_map] in Hh; try discriminate Hh; [| reflexivity].
  injection Hh as <-.
  repeat match goal with
         | |- context [if negb ?x then _ else _] => destruct x; cbn [negb]
         end; reflexivity.
Qed.

Lemma derivationPathValidator_observes_witness :
  fst (derivationPathValidator spec_defaults (VString "m'44/60/0/0") initial)
  = fst (derivationPathValidator spec_defaults
           (VString "M' 044xyz'more/+60abc/0/0") initial).
Proof.
  apply (derivationPathValidator_observes spec_defaults
           "m'44/60/0/0" "M' 044xyz'more/+60abc/0/0"
           "m'44" "M' 044xyz'more" "60" "+60abc" "0" "0");
    vm_compute; reflexivity.
Defined.

(** ** The derivation path validator: what it rejects *)

Lemma split_go_length (sep : string) (s : string) :
  forall skip acc,
    (List.length (JS.split_go sep skip acc s) <= S (String.length s))%nat.
Proof.
  induction s as [| c s IH]; intros skip acc; cbn [JS.split_go String.length].
  - cbn. lia.
  - destruct skip as [| k].
    + destruct (prefix sep (String c s)).
      * cbn [List.length]. specialize (IH (String.length sep - 1)%nat ""). lia.
      * specialize (IH 0%nat (acc ++ String c "")). lia.
    + specialize (IH k acc). lia.
Qed.

Lemma chars_length (s : string) :
  List.length (JS.chars s) = String.length s.
Proof. induction s as [| c s IH]; cbn; [| rewrite IH]; reflexivity. Qed.

(** A split yields at most one segment more than the string has code
    units. *)
Lemma split_length (sep s : string) :
  (List.length (JS.split sep s) <= S (String.length s))%nat.
Proof.
  unfold JS.split. destruct sep as [| c sep].
  - rewrite chars_length. lia.
  - apply split_go_length.
Qed.

(** X3: whatever the constants, a path of fewer than three code units,
    the empty path among them, cannot split into four segments: the
    validator raises the failure [notValidParts] on it, and calls no
    other assertion. *)
Theorem derivationPathValidator_short_path (d : Defaults) (s : string) :
  (String.length s < 3)%nat ->
  derivationPathValidator d (VString s) initial
  = (Throw (Error (Messages.derivationPath, Messages.notValidParts)),
     {| validationTests := [];
        assertions := [(Messages.derivationPath, Messages.notValidParts)];
        converted := 0 |}).
Proof.
  intros Hlen.
  rewrite derivationPathValidator_parts; [reflexivity |].
  pose proof (split_length (DELIMITER (PATH d)) s). lia.
Qed.

Lemma derivationPathValidator_short_path_witness :
  derivationPathValidator spec_defaults (VString "") initial
  = (Throw (Error (Messages.derivationPath, Messages.notValidParts)),
     {| validationTests := [];
        assertions := [(Messages.derivationPath, Messages.notValidParts)];
        converted := 0 |}).
Proof.
  apply (derivationPathValidator_short_path spec_defaults "").
  vm_compute. lia.
Defined.

(** X4: on a path of four segments whose first segment has a first
    piece, the outcome is that of the first check, in the order of the
    source, that does not hold: header key, purpose, coin type, account,
    change and index, number of indexes; a later check that would fail
    as well is not reported. *)
Theorem derivationPathValidator_first_failure
  (d : Defaults) (s a b c e h : string) :
  JS.split (DELIMITER (PATH d)) s = [a; b; c; e] ->
  index (JS.split (SPLITTER d) a) 0 = Some h ->
  call (derivationPathValidator d (VString s)) =
  let failure k := Throw (Error (Messages.derivationPath, k)) in
  if negb (String.eqb (JS.toLowerCase h) (HEADER_KEY (PATH d)))
  then failure Messages.notValidHeaderKey
  else if negb (JS.strict_eq
                  (JS.parseInt (index (JS.split (SPLITTER d) a) 1))
                  (PURPOSE (PATH d)))
  then failure Messages.notValidPurpouse
  else if negb (JS.strict_eq (JS.parseInt_string b) (COIN_MAINNET (PATH d))
                || JS.strict_eq (JS.parseInt_string b) (COIN_TESTNET (PATH d)))
  then failure Messages.notValidCoin
  else if negb (DIGITS (MATCH d) c)
  then failure Messages.notValidAccount
  else if negb (forallb (DIGITS (MATCH d)) (JS.split (SPLITTER d) e))
  then failure Messages.notValidChangeIndex
  else if negb (Nat.leb (List.length (JS.split (SPLITTER d) e)) 2)
  then failure Messages.notValidAccountIndex
  else Return true.
Proof.
  intros Hs Hh. unfold call.
  rewrite (derivationPathValidator_run d s initial a b c e Hs), Hh.
  cbn [JS.parseInt]. cbv zeta.
  repeat match goal with
         | |- context [if negb ?x then _ else _] => destruct x; cbn [negb]
         end; reflexivity.
Qed.

Lemma derivationPathValidator_first_failure_witness :
  call (derivationPathValidator spec_defaults (VString "x'45/99/a/b'c'd"))
  = Throw (Error (Messages.derivationPath, Messages.notValidHeaderKey)).
Proof.
  apply (derivationPathValidator_first_failure spec_defaults
           "x'45/99/a/b'c'd" "x'45" "99" "a" "b'c'd" "x");
    vm_compute; reflexivity.
Defined.

(** ** Assertions and pushes *)

Lemma in_step_passed (n : nat) (st : state) (b : bool) :
  (n <= 7)%nat -> in_step st (Return b, passed n st).
Proof.
  intros Hn. exists (rev (firstn n derivationPath_checks)).
  split; [reflexivity |]. cbn [fst snd passed validationTests].
  rewrite length_rev, length_firstn.
  change (List.length derivationPath_checks) with 7%nat.
  rewrite Nat.min_l by exact Hn. reflexivity.
Qed.

Lemma in_step_fails_at (n : nat) (st : state) :
  (1 <= n <= 7)%nat -> in_step st (fails_at n st).
Proof.
  intros Hn.
  assert (Hcases : (n = 1 \/ n = 2 \/ n = 3 \/ n = 4 \/ n = 5 \/ n = 6
                    \/ n = 7)%nat) by lia.
  exists (rev (firstn n derivationPath_checks)).
  split; [reflexivity |].
  destruct Hcases as [-> | [-> | [-> | [-> | [-> | [-> | ->]]]]]];
    cbn; eexists; split; reflexivity.
Qed.

(** X5: in every validator, on every value, pushes and assertions stay
    in step.  A run that returns has pushed [true] for each assertion it
    called; a run that throws a failure throws that of the assertion it
    called last, has pushed [true] for each assertion before it and has
    pushed nothing for the failing one: no check is evaluated after a
    failing check, and no [false] is ever pushed. *)
Theorem validators_in_step
  (d : Defaults) (f : string -> JS.number) (v : value) (st : state) :
  in_step st (derivationPathValidator d v st)
  /\ in_step st (safeIntegerValidator f v st)
  /\ in_step st (bigNumberValidator v st)
  /\ in_step st (addressValidator d v st)
  /\ in_step st (hexSequenceValidator d v st).
Proof.
  split.
  { destruct (typeof_string v) eqn:Hv.
    - destruct v; try discriminate Hv.
      destruct (Nat.eq_dec (List.length (JS.split (DELIMITER (PATH d)) s)) 4)
        as [Hlen | Hlen].
      + destruct (JS.split (DELIMITER (PATH d)) s)
          as [| a [| b [| c [| e [| x l]]]]] eqn:Hsplit; try discriminate Hlen.
        rewrite (derivationPathValidator_run d s st a b c e Hsplit).
        destruct (index _ 0).
        * repeat match goal with
                 | |- context [if negb ?x then _ else _] =>
                     destruct x; cbn [negb]
                 end;
            first [apply in_step_fails_at; lia | apply in_step_passed; lia].
        * exists [(Messages.derivationPath, Messages.notValidParts)].
          split; reflexivity.
      + rewrite (derivationPathValidator_parts d s st Hlen).
        apply in_step_fails_at. lia.
    - rewrite (derivationPathValidator_not_string d v st Hv).
      exists [(Messages.derivationPath, Messages.notString)].
      split; [reflexivity |]. exists []. split; reflexivity. }
  split.
  { rewrite safeIntegerValidator_run. cbv zeta.
    destruct (JS.ge0 _); [destruct (isSafeInteger v) |].
    - exists [(Messages.safeInteger, Messages.notSafe);
              (Messages.safeInteger, Messages.notPositive);
              (Messages.safeInteger, Messages.notNumber)].
      split; reflexivity.
    - exists [(Messages.safeInteger, Messages.notSafe);
              (Messages.safeInteger, Messages.notPositive);
              (Messages.safeInteger, Messages.notNumber)].
      split; [reflexivity |]. eexists. split; reflexivity.
    - exists [(Messages.safeInteger, Messages.notPositive);
              (Messages.safeInteger, Messages.notNumber)].
      split; [reflexivity |]. eexists. split; reflexivity. }
  assert (Hthrown : in_step st
                      (Throw TypeError,
                       {| validationTests := []; assertions := assertions st;
                          converted := converted st |})).
  { exists []. split; reflexivity. }
  split.
  { rewrite bigNumberValidator_run. cbv zeta.
    destruct (stringify_throws v); [exact Hthrown |].
    exists [(Messages.bigNumber, Messages.notBigNumber)].
    destruct (isBN v); (split; [reflexivity |]);
      [reflexivity | eexists; split; reflexivity]. }
  split.
  { rewrite addressValidator_run. cbv zeta.
    assert (Hnot : in_step st
                     (Throw (Error (Messages.address,
                                    Messages.notStringSequence)),
                      {| validationTests := [];
                         assertions :=
                           (Messages.address, Messages.notStringSequence)
                           :: assertions st;
                         converted := converted st |})).
    { exists [(Messages.address, Messages.notStringSequence)].
      split; [reflexivity |]. eexists. split; reflexivity. }
    destruct v;
      try (destruct (stringify_throws _); [exact Hthrown | exact Hnot]).
    destruct (_ || _);
      [destruct (ADDRESS (MATCH d) s);
       [destruct (isValidChecksumAddress (VString s)) |] |].
    - exists [(Messages.address, Messages.notChecksum);
              (Messages.address, Messages.notFormat);
              (Messages.address, Messages.notStringSequence);
              (Messages.address, Messages.notStringSequence)].
      split; reflexivity.
    - exists [(Messages.address, Messages.notChecksum);
              (Messages.address, Messages.notFormat);
              (Messages.address, Messages.notStringSequence);
              (Messages.address, Messages.notStringSequence)].
      split; [reflexivity |]. eexists. split; reflexivity.
    - exists [(Messages.address, Messages.notFormat);
              (Messages.address, Messages.notStringSequence);
              (Messages.address, Messages.notStringSequence)].
      split; [reflexivity |]. eexists. split; reflexivity.
    - exists [(Messages.address, Messages.notStringSequence);
              (Messages.address, Messages.notStringSequence)].
      split; [reflexivity |]. eexists. split; reflexivity. }
  rewrite hexSequenceValidator_run. cbv zeta.
  assert (Hnot : in_step st
                   (Throw (Error (Messages.hexSequence,
                                  Messages.notStringSequence)),
                    {| validationTests := [];
                       assertions :=
                         (Messages.hexSequence, Messages.notStringSequence)
                         :: assertions st;
                       converted := converted st |})).
  { exists [(Messages.hexSequence, Messages.notStringSequence)].
    split; [reflexivity |]. eexists. split; reflexivity. }
  destruct v;
    try (destruct (stringify_throws _); [exact Hthrown | exact Hnot]).
  destruct (HEX_STRING (MATCH d) s).
  - exists [(Messages.hexSequence, Messages.notFormat);
            (Messages.hexSequence, Messages.notStringSequence)].
    split; reflexivity.
  - exists [(Messages.hexSequence, Messages.notFormat);
            (Messages.hexSequence, Messages.notStringSequence)].
    split; [reflexivity |]. eexists. split; reflexivity.
Qed.

(** ** The safe integer validator: what it accepts *)

Lemma safeIntegerValidator_outcome (f : string -> JS.number) (v : value) :
  call (safeIntegerValidator f v) =
  if JS.ge0 (ToNumber f v)
  then if isSafeInteger v
       then Return true
       else Throw (Error (Messages.safeInteger, Messages.notSafe))
  else Throw (Error (Messages.safeInteger, Messages.notPositive)).
Proof.
  unfold call. rewrite safeIntegerValidator_run. cbv zeta.
  change (ToNumber_at f (converted initial) v) with (ToNumber f v).
  destruct (JS.ge0 _); [destruct (isSafeInteger v) |]; reflexivity.
Qed.

Lemma positive_safe_integer (m : positive) (e : Z) :
  JS.isSafeInteger (S754_finite false m e) = true
  <-> exists n : Z,
        0 <= n <= JS.MAX_SAFE_INTEGER
        /\ ((0 <= e /\ n = Z.pos m * 2 ^ e)
            \/ (e < 0 /\ Z.pos m = n * 2 ^ (- e))).
Proof.
  cbn [JS.isSafeInteger].
  destruct (Z.leb_spec 0 e) as [He | He].
  - assert (Hp : 0 < 2 ^ e) by (apply Z.pow_pos_nonneg; lia).
    rewrite Z.leb_le. split.
    + intros H. exists (Z.pos m * 2 ^ e). split; [nia | left; lia].
    + intros [n [Hn [[_ ->] | [He' _]]]]; lia.
  - assert (Hp : 0 < 2 ^ (- e)) by (apply Z.pow_pos_nonneg; lia).
    rewrite andb_true_iff, Z.eqb_eq, Z.leb_le. split.
    + intros [Hmod Hdiv]. exists (Z.pos m / 2 ^ (- e)). split.
      * split; [apply Z.div_pos; lia | exact Hdiv].
      * right. split; [exact He |].
        pose proof (Z.div_mod (Z.pos m) (2 ^ (- e))). lia.
    + intros [n [Hn [[He' _] | [_ Hm]]]]; [lia |].
      rewrite Hm. split.
      * apply Z.mod_mul. lia.
      * rewrite Z.div_mul by lia. lia.
Qed.

(** X6: [safeIntegerValidator] returns [true] exactly on the numbers
    whose value is an integer from 0 to [2^53 - 1], negative zero
    included; it accepts no value of another type, and no negative,
    fractional, infinite or not-a-number value. *)
Theorem safeIntegerValidator_accepts_iff
  (f : string -> JS.number) (v : value) :
  call (safeIntegerValidator f v) = Return true
  <-> exists (x : JS.number) (n : Z),
        v = VNumber x
        /\ 0 <= n <= JS.MAX_SAFE_INTEGER
        /\ number_is_integer x n.
Proof.
  rewrite safeIntegerValidator_outcome. split.
  - destruct v as [| | b | x | z | s | o]; cbn [isSafeInteger];
      try (destruct (JS.ge0 _); discriminate).
    destruct x as [s | s | | s m e]; unfold ToNumber; cbn [ToNumber_at];
      try (destruct (JS.ge0 _); discriminate).
    + intros _. exists (S754_zero s), 0.
      split; [reflexivity |]. split; [cbv; split; discriminate | reflexivity].
    + destruct s;
        [change (JS.ge0 (S754_finite true m e)) with false; discriminate |].
      change (JS.ge0 (S754_finite false m e)) with true. cbv iota.
      destruct (JS.isSafeInteger (S754_finite false m e)) eqn:H;
        [| discriminate].
      intros _. apply positive_safe_integer in H. destruct H as [n [Hn H]].
      exists (S754_finite false m e), n.
      split; [reflexivity |]. split; [exact Hn | exact H].
  - intros (x & n & -> & Hn & Hx). unfold ToNumber.
    cbn [ToNumber_at isSafeInteger].
    destruct x as [s | s | | s m e]; cbn [number_is_integer] in Hx;
      try contradiction.
    + destruct s; reflexivity.
    + destruct s.
      * exfalso. cbv zeta in Hx.
        destruct Hx as [[He ->] | [He Hx]].
        -- assert (0 < 2 ^ e) by (apply Z.pow_pos_nonneg; lia). nia.
        -- assert (0 < 2 ^ (- e)) by (apply Z.pow_pos_nonneg; lia). nia.
      * change (JS.ge0 (S754_finite false m e)) with true. cbv iota.
        rewrite (proj2 (positive_safe_integer m e)); [reflexivity |].
        exists n. split; [exact Hn | exact Hx].
Qed.

Lemma safeIntegerValidator_accepts_iff_witness :
  call (safeIntegerValidator (fun _ => JS.NaN)
          (VNumber (JS.number_of_Z 1024))) = Return true.
Proof.
  apply (proj2 (safeIntegerValidator_accepts_iff (fun _ => JS.NaN)
                  (VNumber (JS.number_of_Z 1024)))).
  exists (JS.number_of_Z 1024), 1024.
  split; [reflexivity |]. split; [vm_compute; split; discriminate |].
  right. split; vm_compute; reflexivity.
Defined.

(** X7: on a value that is not a number, [safeIntegerValidator] lets it
    through the first check and decides by coercion: [null], [true] and
    [false] convert to a number [>= 0] and fail as Unsafe ([notSafe]);
    [undefined] converts to NaN and fails as Negative ([notPositive]); a
    string or an object fails as Unsafe when the number it converts to is
    [>= 0], a numeric string such as ["5"] included, and as Negative
    otherwise. *)
Theorem safeIntegerValidator_not_a_number (f : string -> JS.number) :
  call (safeIntegerValidator f VUndefined)
  = Throw (Error (Messages.safeInteger, Messages.notPositive))
  /\ call (safeIntegerValidator f VNull)
     = Throw (Error (Messages.safeInteger, Messages.notSafe))
  /\ (forall b : bool,
        call (safeIntegerValidator f (VBool b))
        = Throw (Error (Messages.safeInteger, Messages.notSafe)))
  /\ (forall s : string,
        call (safeIntegerValidator f (VString s))
        = if JS.ge0 (f s)
          then Throw (Error (Messages.safeInteger, Messages.notSafe))
          else Throw (Error (Messages.safeInteger, Messages.notPositive)))
  /\ (forall o : object,
        call (safeIntegerValidator f (VObject o))
        = if JS.ge0 (obj_toNumber o)
          then Throw (Error (Messages.safeInteger, Messages.notSafe))
          else Throw (Error (Messages.safeInteger, Messages.notPositive))).
Proof.
  split; [rewrite safeIntegerValidator_outcome; reflexivity |].
  split; [rewrite safeIntegerValidator_outcome; reflexivity |].
  split; [intros b; rewrite safeIntegerValidator_outcome;
          destruct b; reflexivity |].
  split; [intros s | intros o]; rewrite safeIntegerValidator_outcome;
    reflexivity.
Qed.

(** ** Messages are built before the assertion is called *)

(** X9: in [bigNumberValidator], [addressValidator] and
    [hexSequenceValidator] the message of the first assertion is built
    with [JSON.stringify] before [assertTruth] is called.  On a value on
    which [JSON.stringify] throws, a BigInt or a circular object, the
    three validators end in the runtime's [TypeError] with no assertion
    called and nothing pushed, [bigNumberValidator] even when [BN.isBN]
    recognises the value.  On every other value none of the three ends in
    a [TypeError], and [addressValidator] and [hexSequenceValidator] stop
    a value that is not a string at their first assertion, with the
    failure [notStringSequence], before [length] or [match] is read. *)
Theorem message_built_before_assertion
  (d : Defaults) (v : value) (st : state) :
  (stringify_throws v = true ->
   bigNumberValidator v st
   = (Throw TypeError,
      {| validationTests := []; assertions := assertions st;
         converted := converted st |})
   /\ addressValidator d v st
      = (Throw TypeError,
         {| validationTests := []; assertions := assertions st;
            converted := converted st |})
   /\ hexSequenceValidator d v st
      = (Throw TypeError,
         {| validationTests := []; assertions := assertions st;
            converted := converted st |}))
  /\ (stringify_throws v = false ->
      throws_TypeError (fst (bigNumberValidator v st)) = false
      /\ throws_TypeError (fst (addressValidator d v st)) = false
      /\ throws_TypeError (fst (hexSequenceValidator d v st)) = false)
  /\ (stringify_throws v = false ->
      typeof_string v = false ->
      addressValidator d v st
      = (Throw (Error (Messages.address, Messages.notStringSequence)),
         {| validationTests := [];
            assertions := (Messages.address, Messages.notStringSequence)
                          :: assertions st;
            converted := converted st |})
      /\ hexSequenceValidator d v st
         = (Throw (Error (Messages.hexSequence, Messages.notStringSequence)),
            {| validationTests := [];
               assertions := (Messages.hexSequence, Messages.notStringSequence)
                             :: assertions st;
               converted := converted st |})).
Proof.
  rewrite bigNumberValidator_run, addressValidator_run,
    hexSequenceValidator_run. cbv zeta.
  split; [| split].
  - intros Hv. rewrite Hv.
    destruct v; try discriminate Hv; repeat split.
  - intros Hv. rewrite Hv. split; [destruct (isBN v); reflexivity |].
    split.
    + destruct v; try reflexivity.
      destruct (_ || _);
        [destruct (ADDRESS (MATCH d) s);
         [destruct (isValidChecksumAddress (VString s)) |] |]; reflexivity.
    + destruct v; try reflexivity.
      destruct (HEX_STRING (MATCH d) s); reflexivity.
  - intros Hv Hs. rewrite Hv.
    destruct v; try discriminate Hs; split; reflexivity.
Qed.

Lemma message_built_before_assertion_witness :
  (bigNumberValidator (VBigInt 10) initial
   = (Throw TypeError,
      {| validationTests := []; assertions := assertions initial;
         converted := converted initial |})
   /\ addressValidator spec_defaults (VBigInt 10) initial
      = (Throw TypeError,
         {| validationTests := []; assertions := assertions initial;
            converted := converted initial |})
   /\ hexSequenceValidator spec_defaults (VBigInt 10) initial
      = (Throw TypeError,
         {| validationTests := []; assertions := assertions initial;
            converted := converted initial |}))
  /\ (addressValidator spec_defaults VUndefined initial
      = (Throw (Error (Messages.address, Messages.notStringSequence)),
         {| validationTests := [];
            assertions := (Messages.address, Messages.notStringSequence)
                          :: assertions initial;
            converted := converted initial |})
      /\ hexSequenceValidator spec_defaults VUndefined initial
         = (Throw (Error (Messages.hexSequence, Messages.notStringSequence)),
            {| validationTests := [];
               assertions := (Messages.hexSequence, Messages.notStringSequence)
                             :: assertions initial;
               converted := converted initial |})).
Proof.
  split.
  - apply (proj1 (message_built_before_assertion spec_defaults (VBigInt 10)
                    initial)).
    reflexivity.
  - apply (proj2 (proj2 (message_built_before_assertion spec_defaults
                           VUndefined initial)));
      reflexivity.
Defined.

(** ** The address validator: what it accepts *)

(** X10: [addressValidator] returns [true] exactly on the strings of 40
    or 42 code units that match the address pattern and pass the checksum
    test; the checks are made in that order, so a string of another
    length fails on its length whether or not it matches the pattern, and
    the checksum is only computed for a string that matches it. *)
Theorem addressValidator_accepts_iff (d : Defaults) (v : value) :
  (call (addressValidator d v) = Return true
   <-> exists s : string,
         v = VString s
         /\ (String.length s = 40%nat \/ String.length s = 42%nat)
         /\ ADDRESS (MATCH d) s = true
         /\ isValidChecksumAddress (VString s) = true)
  /\ (forall s : string,
        v = VString s ->
        call (addressValidator d v) =
        if Nat.eqb (String.length s) 40 || Nat.eqb (String.length s) 42
        then if ADDRESS (MATCH d) s
             then if isValidChecksumAddress (VString s)
                  then Return true
                  else Throw (Error (Messages.address, Messages.notChecksum))
             else Throw (Error (Messages.address, Messages.notFormat))
        else Throw (Error (Messages.address, Messages.notStringSequence))).
Proof.
  unfold call. rewrite addressValidator_run. cbv zeta. split.
  - split.
    + destruct v; cbn [fst];
        try (destruct (stringify_throws _); discriminate).
      destruct (_ || _) eqn:Hlen; [| discriminate].
      destruct (ADDRESS (MATCH d) s) eqn:Hf; [| discriminate].
      destruct (isValidChecksumAddress (VString s)) eqn:Hc; [| discriminate].
      intros _. exists s. rewrite orb_true_iff, !Nat.eqb_eq in Hlen.
      repeat split; assumption.
    + intros (s & -> & Hlen & Hf & Hc).
      rewrite <- !Nat.eqb_eq, <- orb_true_iff in Hlen.
      rewrite Hlen, Hf, Hc. reflexivity.
  - intros s ->.
    destruct (_ || _);
      [destruct (ADDRESS (MATCH d) s);
       [destruct (isValidChecksumAddress (VString s)) |] |]; reflexivity.
Qed.

Lemma addressValidator_accepts_iff_witness :
  call (addressValidator spec_defaults
          (VString "0xfB6916095ca1df60bB79Ce92cE3Ea74c37c5d359")) = Return true.
Proof.
  apply (proj2 (proj1 (addressValidator_accepts_iff spec_defaults
                         (VString "0xfB6916095ca1df60bB79Ce92cE3Ea74c37c5d359")))).
  exists "0xfB6916095ca1df60bB79Ce92cE3Ea74c37c5d359".
  split; [reflexivity |]. split; [right; reflexivity |].
  split; vm_compute; reflexivity.
Defined.

Lemma digit_not_letter (c : ascii) :
  JS.is_digit c = true -> JS.is_upper_hex c || JS.is_lower_hex c = false.
Proof.
  unfold JS.is_digit, JS.is_upper_hex, JS.is_lower_hex, JS.in_range.
  rewrite andb_true_iff, !N.leb_le. intros [_ H].
  apply orb_false_iff. split; apply andb_false_iff; left; apply N.leb_gt; lia.
Qed.

Lemma digit_is_hex (c : ascii) : JS.is_digit c = true -> JS.is_hex c = true.
Proof. intros H. unfold JS.is_hex. rewrite H. reflexivity. Qed.

Lemma case_matches_digits (hash : list Z) (s : string) :
  all_chars JS.is_digit s = true ->
  forall i : nat, case_matches i hash s = true.
Proof.
  induction s as [| c s IH]; intros H i; cbn [case_matches all_chars] in *.
  - reflexivity.
  - apply andb_true_iff in H. destruct H as [Hc Hs].
    rewrite (digit_not_letter c Hc), (IH Hs). reflexivity.
Qed.

Lemma all_chars_impl (p q : ascii -> bool) (s : string) :
  (forall c, p c = true -> q c = true) ->
  all_chars p s = true -> all_chars q s = true.
Proof.
  intros Hpq. induction s as [| c s IH]; cbn [all_chars]; [reflexivity |].
  rewrite !andb_true_iff. intros [Hc Hs]. split; [apply Hpq, Hc | apply IH, Hs].
Qed.

(** X11: the checksum constrains letters only: every address made of the
    prefix [0x] and 40 decimal digits is accepted, whatever the hash of
    its digits is. *)
Theorem addressValidator_decimal_digits (s : string) :
  String.length s = 40%nat ->
  all_chars JS.is_digit s = true ->
  call (addressValidator spec_defaults (VString ("0x" ++ s))) = Return true.
Proof.
  intros Hlen Hdigits. unfold call. rewrite addressValidator_run. cbv zeta.
  assert (Hformat : spec_ADDRESS ("0x" ++ s) = true).
  { unfold spec_ADDRESS. apply orb_true_iff. right.
    rewrite prefix_0x_append. cbn [andb append strip_0x]. unfold hex_body.
    rewrite Hlen. cbn [Nat.eqb andb].
    exact (all_chars_impl _ _ s digit_is_hex Hdigits). }
  rewrite (spec_ADDRESS_length _ Hformat).
  change (ADDRESS (MATCH spec_defaults) ("0x" ++ s))
    with (spec_ADDRESS ("0x" ++ s)).
  rewrite Hformat.
  unfold isValidChecksumAddress. cbn [append strip_0x]. cbv zeta.
  rewrite (case_matches_digits _ s Hdigits). reflexivity.
Qed.

Lemma addressValidator_decimal_digits_witness :
  call (addressValidator spec_defaults
          (VString ("0x" ++ "0123456789012345678901234567890123456789")))
  = Return true.
Proof.
  apply (addressValidator_decimal_digits
           "0123456789012345678901234567890123456789");
    vm_compute; reflexivity.
Defined.

(** ** The message catalog and the failures *)

(** X12: no two entries of the catalog have the same text: two entries
    with the same text are the same key of the same validator. *)
Theorem catalog_entries_distinct
  (v v' : Messages.validator_name) (k k' : Messages.message_key) (t : string) :
  Messages.validators v k = Some t ->
  Messages.validators v' k' = Some t ->
  v = v' /\ k = k'.
Proof.
  intros H H'.
  destruct v, k; cbn in H; try discriminate H;
    destruct v', k'; cbn in H'; try discriminate H';
    first [ split; reflexivity
          | exfalso; rewrite <- H in H'; discriminate H' ].
Qed.

Lemma catalog_entries_distinct_witness :
  Messages.address = Messages.address
  /\ Messages.notLength = Messages.notLength.
Proof.
  apply (catalog_entries_distinct Messages.address Messages.address
           Messages.notLength Messages.notLength
           "The address passed in does not have the correct length");
    reflexivity.
Defined.

(** X13: the failures a validator can throw are few, and each carries an
    entry the catalog defines.  [derivationPathValidator] throws
    [notString] or one of its seven checks; [safeIntegerValidator]
    [notPositive] or [notSafe]; [bigNumberValidator] [notBigNumber];
    [addressValidator] [notStringSequence], [notFormat] or [notChecksum];
    [hexSequenceValidator] [notStringSequence] or [notFormat].  The
    entries [safeInteger.notNumber], [address.notLength] and the five
    [genericError] are carried by no failure. *)
Theorem validators_failures
  (d : Defaults) (f : string -> JS.number) (v : value) (st : state) :
  only_raises derivationPath_failures (fst (derivationPathValidator d v st))
  = true
  /\ only_raises safeInteger_failures (fst (safeIntegerValidator f v st)) = true
  /\ only_raises bigNumber_failures (fst (bigNumberValidator v st)) = true
  /\ only_raises address_failures (fst (addressValidator d v st)) = true
  /\ only_raises hexSequence_failures (fst (hexSequenceValidator d v st)) = true
  /\ forallb defined_in_catalog
       (derivationPath_failures ++ safeInteger_failures ++ bigNumber_failures
        ++ address_failures ++ hexSequence_failures)%list = true.
Proof.
  split.
  { destruct (typeof_string v) eqn:Hv.
    - destruct v; try discriminate Hv.
      destruct (Nat.eq_dec (List.length (JS.split (DELIMITER (PATH d)) s)) 4)
        as [Hlen | Hlen].
      + destruct (JS.split (DELIMITER (PATH d)) s)
          as [| a [| b [| c [| e [| x l]]]]] eqn:Hsplit; try discriminate Hlen.
        rewrite (derivationPathValidator_run d s st a b c e Hsplit).
        destruct (index _ 0); [| reflexivity].
        repeat match goal with
               | |- context [if negb ?x then _ else _] =>
                   destruct x; cbn [negb]
               end; reflexivity.
      + rewrite (derivationPathValidator_parts d s st Hlen). reflexivity.
    - rewrite (derivationPathValidator_not_string d v st Hv). reflexivity. }
  split.
  { rewrite safeIntegerValidator_run. cbv zeta.
    destruct (JS.ge0 _); [destruct (isSafeInteger v) |]; reflexivity. }
  split.
  { rewrite bigNumberValidator_run. cbv zeta.
    destruct (stringify_throws v); [reflexivity |].
    destruct (isBN v); reflexivity. }
  split.
  { rewrite addressValidator_run. cbv zeta.
    destruct v; try (destruct (stringify_throws _); reflexivity).
    destruct (_ || _);
      [destruct (ADDRESS (MATCH d) s);
       [destruct (isValidChecksumAddress (VString s)) |] |]; reflexivity. }
  split.
  { rewrite hexSequenceValidator_run. cbv zeta.
    destruct v; try (destruct (stringify_throws _); reflexivity).
    destruct (HEX_STRING (MATCH d) s); reflexivity. }
  vm_compute. reflexivity.
Qed.

(** ** The test of the fail-safe *)

(** X14: the test that guards the generic failure,
    [!validationTests.some(test => test !== false)], holds exactly when
    no element of the list is [true]: it holds on the empty list, and it
    does not hold on a list that has a [true], whatever [false] values
    stand beside it. *)
Theorem fail_safe_test (tests : list bool) :
  (negb (some_not_false tests) = true <-> Forall (fun test => test = false) tests)
  /\ (forall before after : list bool,
        negb (some_not_false (before ++ true :: after)) = false).
Proof.
  split.
  - unfold some_not_false. induction tests as [| b tests IH]; cbn [existsb].
    + split; [constructor | reflexivity].
    + rewrite negb_orb, andb_true_iff, IH. split.
      * intros [Hb Ht]. constructor; [destruct b; [discriminate Hb | reflexivity]
                                     | exact Ht].
      * intros H. inversion H; subst. split; [reflexivity | assumption].
  - intros before after. unfold some_not_false.
    rewrite existsb_app. cbn [existsb Bool.eqb negb].
    rewrite orb_true_r. reflexivity.
Qed.

Lemma fail_safe_test_witness :
  negb (some_not_false [false; false]) = true.
Proof.
  apply (proj2 (proj1 (fail_safe_test [false; false]))).
  repeat constructor.
Defined.

(** ** Addresses are hex sequences *)

Lemma spec_ADDRESS_hex_sequence (s : string) :
  spec_ADDRESS s = true -> spec_HEX_STRING s = true.
Proof.
  assert (Hbody : forall t, hex_body 40 t = true -> even_hex_body t = true).
  { intros t. unfold hex_body, even_hex_body. rewrite !andb_true_iff.
    intros [Hlen Hhex]. apply Nat.eqb_eq in Hlen. rewrite Hlen.
    split; [reflexivity | exact Hhex]. }
  unfold spec_ADDRESS, spec_HEX_STRING.
  rewrite !orb_true_iff, !andb_true_iff.
  intros [H | [Hp H]]; [left | right; split; [exact Hp |]]; apply Hbody, H.
Qed.

(** X15: with the patterns of the defaults, every value that
    [addressValidator] accepts is accepted by [hexSequenceValidator] as
    well: an address is a hex sequence. *)
Theorem address_is_hex_sequence (v : value) :
  call (addressValidator spec_defaults v) = Return true ->
  call (hexSequenceValidator spec_defaults v) = Return true.
Proof.
  unfold call. rewrite addressValidator_run, hexSequenceValidator_run.
  cbv zeta.
  destruct v; cbn [fst]; try (destruct (stringify_throws _); discriminate).
  destruct (_ || _); [| discriminate].
  change (ADDRESS (MATCH spec_defaults) s) with (spec_ADDRESS s).
  change (HEX_STRING (MATCH spec_defaults) s) with (spec_HEX_STRING s).
  destruct (spec_ADDRESS s) eqn:Hf; [| discriminate].
  rewrite (spec_ADDRESS_hex_sequence s Hf). reflexivity.
Qed.

Lemma address_is_hex_sequence_witness :
  call (hexSequenceValidator spec_defaults
          (VString "0x5aAeb6053F3E94C9b9A09f33669435E7Ef1BeAed")) = Return true.
Proof.
  apply (address_is_hex_sequence
           (VString "0x5aAeb6053F3E94C9b9A09f33669435E7Ef1BeAed")).
  vm_compute. reflexivity.
Defined.
